(** * YaMDb API: access control, entity model, rating and confirmation flow

    A shallow embedding of [api/models.py], [api/permissions.py] and
    [api/views.py].  Python integers are [Z], text is [string], database
    tables are lists of rows carrying their primary key, and everything that
    can raise returns in the exception monad [result]. *)

From Stdlib Require Import ZArith List String Bool Lia QArith.
From Stdlib Require Import Sorted Permutation.
Import ListNotations.

Local Open Scope string_scope.
Local Open Scope Z_scope.

(** ** Exceptions *)

Module Exc.

Inductive Exception : Type :=
| ValidationError (message : string) (params : list (string * Z))
| AttributeError (attr : string)
| IntegrityError
| MultipleObjectsReturned
| DoesNotExist
| Http404
| NotAuthenticated
| PermissionDenied
| MethodNotAllowed
| SMTPException.

Inductive result (A : Type) : Type :=
| Ok (a : A)
| Raise (e : Exception).

Arguments Ok {A} a.
Arguments Raise {A} e.

Definition bind {A B : Type} (m : result A) (k : A -> result B) : result B :=
  match m with
  | Ok a => k a
  | Raise e => Raise e
  end.

Definition is_ok {A : Type} (m : result A) : bool :=
  match m with Ok _ => true | Raise _ => false end.

End Exc.
Import Exc.

Notation "x <- m ;; k" := (bind m (fun x => k))
  (at level 61, m at next level, right associativity).

(** Python's [a or b] on booleans: [b] is only looked at when [a] is false,
    and an exception raised by either operand propagates. *)
Definition py_or (a b : result bool) : result bool :=
  x <- a ;; if x then Ok true else b.

(** ** api/models.py *)

Module Models.

(** [def validate_year(value)]; [today_year] is [date.today().year]. *)
Definition validate_year (today_year value : Z) : result unit :=
  if (value >? today_year + 10) || (value <? -40000)
  then Raise (ValidationError
                "the year %(value)s is outside the valid date range"
                [("value", value)])
  else Ok tt.

(** [class UserRoles(models.TextChoices)]: the stored values. *)
Module UserRoles.
Definition USER : string := "user".
Definition MODERATOR : string := "moderator".
Definition ADMIN : string := "admin".
Definition choices : list string := [USER; MODERATOR; ADMIN].
End UserRoles.

(** [class User(AbstractUser)]: the columns the views and policies read. *)
Record User : Type := mkUser {
  user_pk : Z;
  username : string;
  email : string;
  first_name : string;
  last_name : string;
  bio : string;
  role : string;
  confirmation_code : string;
  is_active : bool;
  is_staff : bool
}.

(** [@property def moderator(self)] *)
Definition moderator (self : User) : bool :=
  String.eqb (role self) UserRoles.MODERATOR.

(** [@property def admin(self)] *)
Definition admin (self : User) : bool :=
  String.eqb (role self) UserRoles.ADMIN.

Record Category : Type := mkCategory {
  category_pk : Z;
  category_name : string;
  category_slug : string
}.

Record Genre : Type := mkGenre {
  genre_pk : Z;
  genre_name : string;
  genre_slug : string
}.

(** [Title.category] is a nullable foreign key, hence [option]; [genre] holds
    the primary keys the many-to-many relation links the title to. *)
Record Title : Type := mkTitle {
  title_pk : Z;
  title_name : string;
  year : Z;
  description : string;
  genre : list Z;
  category : option Z
}.

Record Review : Type := mkReview {
  review_pk : Z;
  review_title : Z;
  review_text : string;
  review_author : Z;
  score : Z
}.

Record Comment : Type := mkComment {
  comment_pk : Z;
  comment_review : Z;
  comment_author : Z;
  comment_text : string
}.

End Models.
Import Models.


(** The declared [on_delete] behaviour of the foreign keys. *)
Inductive on_delete : Type :=
| CASCADE
| SET_NULL.

Module ForeignKeys.
Definition Title_category : on_delete := SET_NULL.
Definition Review_title : on_delete := CASCADE.
Definition Review_author : on_delete := CASCADE.
Definition Comment_review : on_delete := CASCADE.
Definition Comment_author : on_delete := CASCADE.
End ForeignKeys.

(** ** Requests *)

(** [request.user] is a [User] row or Django's [AnonymousUser]. *)
Inductive Subject : Type :=
| AnonymousUser
| LoggedIn (u : User).

Definition is_authenticated (s : Subject) : bool :=
  match s with AnonymousUser => false | LoggedIn _ => true end.

(** [AnonymousUser.is_staff] is the class attribute [False]. *)
Definition subject_is_staff (s : Subject) : bool :=
  match s with AnonymousUser => false | LoggedIn u => is_staff u end.

(** [admin] and [moderator] are properties of the project's [User] only:
    reading them on [AnonymousUser] raises [AttributeError]. *)
Definition subject_admin (s : Subject) : result bool :=
  match s with
  | AnonymousUser => Raise (AttributeError "admin")
  | LoggedIn u => Ok (admin u)
  end.

Definition subject_moderator (s : Subject) : result bool :=
  match s with
  | AnonymousUser => Raise (AttributeError "moderator")
  | LoggedIn u => Ok (moderator u)
  end.

(** A signed JSON web token: its type and the user it is bound to. *)
Inductive TokenType : Type :=
| refresh
| access.

Record Token : Type := mkToken {
  token_type : TokenType;
  token_user_id : Z
}.

(** JSON-like values; [VJwt t] is the signed text [str(t)] of a token. *)
Inductive Value : Type :=
| VStr (s : string)
| VBool (b : bool)
| VInt (n : Z)
| VJwt (t : Token).

(** A Python dictionary, in insertion order. *)
Definition Dict : Type := list (string * Value).

Fixpoint dict_get (d : Dict) (key : string) : option Value :=
  match d with
  | [] => None
  | (k, v) :: rest => if String.eqb k key then Some v else dict_get rest key
  end.

(** [d[key] = v]: an existing key keeps its place, a new one goes last. *)
Definition dict_set (d : Dict) (key : string) (v : Value) : Dict :=
  match dict_get d key with
  | Some _ => map (fun kv => if String.eqb (fst kv) key then (key, v) else kv) d
  | None => (d ++ [(key, v)])%list
  end.

(** [{**d, **kwargs}] *)
Definition dict_merge (d kwargs : Dict) : Dict :=
  fold_left (fun acc kv => dict_set acc (fst kv) (snd kv)) kwargs d.

Record Request : Type := mkRequest {
  method : string;
  user : Subject;
  data : Dict
}.

Record Response : Type := mkResponse {
  body : Dict;
  status : Z
}.

(** The instance a detail route resolved: a review or a comment. *)
Inductive Obj : Type :=
| ReviewObj (r : Review)
| CommentObj (c : Comment).

Definition author_id (obj : Obj) : Z :=
  match obj with
  | ReviewObj r => review_author r
  | CommentObj c => comment_author c
  end.

(** [obj.author == request.user]: Django compares model instances by primary
    key; an [AnonymousUser] is equal to no row. *)
Definition author_eq (obj : Obj) (s : Subject) : bool :=
  match s with
  | AnonymousUser => false
  | LoggedIn u => author_id obj =? user_pk u
  end.

(** ** api/permissions.py *)

Module Permissions.

(** [rest_framework.permissions.SAFE_METHODS] *)
Definition SAFE_METHODS : list string := ["GET"; "HEAD"; "OPTIONS"].

Definition py_in (x : string) (xs : list string) : bool :=
  existsb (String.eqb x) xs.

(** A permission method returns a boolean or falls off its end, which is
    Python's [None]. *)
Definition Decision : Type := result (option bool).

(** The framework denies when the returned value is falsy. *)
Definition truthy (v : option bool) : bool :=
  match v with Some true => true | _ => false end.

Definition allows (d : Decision) : bool :=
  match d with Ok v => truthy v | Raise _ => false end.

(** [rest_framework.permissions.BasePermission]: both hooks default to
    [True]. *)
Record BasePermission : Type := mkPermission {
  has_permission : Request -> Decision;
  has_object_permission : Request -> Obj -> Decision
}.

Definition default_has_permission (request : Request) : Decision :=
  Ok (Some true).

Definition default_has_object_permission (request : Request) (obj : Obj)
  : Decision := Ok (Some true).

(** [class IsAdmin] *)
Definition IsAdmin_has_permission (request : Request) : Decision :=
  if is_authenticated (user request)
  then b <- py_or (Ok (subject_is_staff (user request)))
                  (subject_admin (user request)) ;;
       Ok (Some b)
  else Ok None.

Definition IsAdmin : BasePermission :=
  mkPermission IsAdmin_has_permission default_has_object_permission.

(** [class IsAdminOrReadOnly] *)
Definition IsAdminOrReadOnly_has_permission (request : Request) : Decision :=
  if py_in (method request) SAFE_METHODS
  then Ok (Some true)
  else if is_authenticated (user request)
  then b <- py_or (Ok (subject_is_staff (user request)))
                  (subject_admin (user request)) ;;
       Ok (Some b)
  else Ok None.

Definition IsAdminOrReadOnly : BasePermission :=
  mkPermission IsAdminOrReadOnly_has_permission default_has_object_permission.

(** [class IsAuthorOrStaffOrReadOnly] *)
Definition IsAuthorOrStaffOrReadOnly_has_object_permission
    (request : Request) (obj : Obj) : Decision :=
  b <- py_or (Ok (py_in (method request) SAFE_METHODS))
         (py_or (Ok (author_eq obj (user request)))
            (py_or (subject_admin (user request))
                   (subject_moderator (user request)))) ;;
  Ok (Some b).

Definition IsAuthorOrStaffOrReadOnly : BasePermission :=
  mkPermission default_has_permission
               IsAuthorOrStaffOrReadOnly_has_object_permission.

(** The framework policies the views name ([rest_framework.permissions]). *)
Definition AllowAny : BasePermission :=
  mkPermission default_has_permission default_has_object_permission.

Definition IsAuthenticated : BasePermission :=
  mkPermission (fun request => Ok (Some (is_authenticated (user request))))
               default_has_object_permission.

Definition IsAuthenticatedOrReadOnly : BasePermission :=
  mkPermission
    (fun request => Ok (Some (py_in (method request) SAFE_METHODS
                              || is_authenticated (user request))))
    default_has_object_permission.

(** [APIView.permission_denied] *)
Definition permission_denied (request : Request) : result unit :=
  if is_authenticated (user request)
  then Raise PermissionDenied
  else Raise NotAuthenticated.

(** [APIView.check_permissions]: every policy of the view, in order. *)
Fixpoint check_permissions (permission_classes : list BasePermission)
    (request : Request) : result unit :=
  match permission_classes with
  | [] => Ok tt
  | p :: rest =>
      v <- has_permission p request ;;
      if truthy v then check_permissions rest request
      else permission_denied request
  end.

(** [APIView.check_object_permissions] *)
Fixpoint check_object_permissions (permission_classes : list BasePermission)
    (request : Request) (obj : Obj) : result unit :=
  match permission_classes with
  | [] => Ok tt
  | p :: rest =>
      v <- has_object_permission p request obj ;;
      if truthy v then check_object_permissions rest request obj
      else permission_denied request
  end.

(** A detail route runs [check_permissions] in [initial] and then
    [check_object_permissions] in [get_object]. *)
Definition authorize_object (permission_classes : list BasePermission)
    (request : Request) (obj : Obj) : result unit :=
  _ <- check_permissions permission_classes request ;;
  check_object_permissions permission_classes request obj.

End Permissions.
Import Permissions.

(** ** The persistent store and the ORM operations the views call *)

Record Mail : Type := mkMail {
  mail_subject : string;
  mail_message : string;
  mail_from : string;
  mail_recipients : list string
}.

Record Store : Type := mkStore {
  users : list User;
  categories : list Category;
  genres : list Genre;
  titles : list Title;
  reviews : list Review;
  comments : list Comment;
  outbox : list Mail
}.

Definition with_users (us : list User) (s : Store) : Store :=
  mkStore us (categories s) (genres s) (titles s) (reviews s) (comments s) (outbox s).

Definition with_categories (cs : list Category) (s : Store) : Store :=
  mkStore (users s) cs (genres s) (titles s) (reviews s) (comments s) (outbox s).

Definition with_titles (ts : list Title) (s : Store) : Store :=
  mkStore (users s) (categories s) (genres s) ts (reviews s) (comments s) (outbox s).

Definition with_reviews (rs : list Review) (s : Store) : Store :=
  mkStore (users s) (categories s) (genres s) (titles s) rs (comments s) (outbox s).

Definition with_comments (cs : list Comment) (s : Store) : Store :=
  mkStore (users s) (categories s) (genres s) (titles s) (reviews s) cs (outbox s).

Definition with_outbox (ms : list Mail) (s : Store) : Store :=
  mkStore (users s) (categories s) (genres s) (titles s) (reviews s) (comments s) ms.

(** A view is a computation over the store that may raise; what it wrote
    before raising stays written (requests are not atomic). *)
Definition View (A : Type) : Type := Store -> result A * Store.

Definition ret {A : Type} (a : A) : View A := fun s => (Ok a, s).

Definition raise {A : Type} (e : Exception) : View A := fun s => (Raise e, s).

Definition lift {A : Type} (r : result A) : View A := fun s => (r, s).

Definition bindV {A B : Type} (m : View A) (k : A -> View B) : View B :=
  fun s =>
    match m s with
    | (Ok a, s') => k a s'
    | (Raise e, s') => (Raise e, s')
    end.

Notation "x <~ m ;; k" := (bindV m (fun x => k))
  (at level 61, m at next level, right associativity).

Module ORM.

Definition mem_pk (k : Z) (pks : list Z) : bool := existsb (Z.eqb k) pks.

(** The next value of an auto-increment primary key. *)
Definition next_pk (pks : list Z) : Z := 1 + fold_right Z.max 0 pks.

(** [Model.objects.get] with keyword lookups *)
Definition User_objects_get (lookup : User -> bool) : View User :=
  fun s =>
    match filter lookup (users s) with
    | [] => (Raise DoesNotExist, s)
    | [u] => (Ok u, s)
    | _ => (Raise MultipleObjectsReturned, s)
    end.

(** [username] ([AbstractUser]) and [email] are declared [unique=True]. *)
Definition violates_unique (u : User) (rows : list User) : bool :=
  existsb (fun r => negb (user_pk r =? user_pk u)
                    && (String.eqb (username r) (username u)
                        || String.eqb (email r) (email u))) rows.

(** [User.objects.create(email=, username=, confirmation_code=, is_active=)];
    the other columns take their declared defaults. *)
Definition User_objects_create
    (email_ username_ confirmation_code_ : string) (is_active_ : bool)
  : View User :=
  fun s =>
    let u := mkUser (next_pk (map user_pk (users s))) username_ email_
                    "" "" "" UserRoles.USER confirmation_code_ is_active_ false in
    if violates_unique u (users s)
    then (Raise IntegrityError, s)
    else (Ok u, with_users (users s ++ [u])%list s).

(** [User.objects.get_or_create(email=, username=, confirmation_code=,
    is_active=)]: all four keyword arguments are the lookup, and, no
    [defaults] being given, also the values of the row to create. *)
Definition User_objects_get_or_create
    (email_ username_ confirmation_code_ : string) (is_active_ : bool)
  : View (User * bool) :=
  let lookup := fun r =>
        String.eqb (email r) email_ && String.eqb (username r) username_
        && String.eqb (confirmation_code r) confirmation_code_
        && Bool.eqb (is_active r) is_active_ in
  fun s =>
    match User_objects_get lookup s with
    | (Ok u, s1) => (Ok (u, false), s1)
    | (Raise DoesNotExist, s1) =>
        match User_objects_create email_ username_ confirmation_code_
                                  is_active_ s1 with
        | (Ok u, s2) => (Ok (u, true), s2)
        | (Raise IntegrityError, s2) =>
            match User_objects_get lookup s2 with
            | (Ok u, s3) => (Ok (u, false), s3)
            | (Raise DoesNotExist, s3) => (Raise IntegrityError, s3)
            | (Raise e, s3) => (Raise e, s3)
            end
        | (Raise e, s2) => (Raise e, s2)
        end
    | (Raise e, s1) => (Raise e, s1)
    end.

(** [get_object_or_404(User, email=...)] *)
Definition get_User_or_404 (lookup : User -> bool) : View User :=
  fun s =>
    match User_objects_get lookup s with
    | (Raise DoesNotExist, s1) => (Raise Http404, s1)
    | other => other
    end.

(** [user.save()]: UPDATE of the row with this primary key, INSERT when there
    is none. *)
Definition User_save (u : User) : View unit :=
  fun s =>
    if violates_unique u (users s)
    then (Raise IntegrityError, s)
    else if mem_pk (user_pk u) (map user_pk (users s))
    then (Ok tt, with_users
                   (map (fun r => if user_pk r =? user_pk u then u else r)
                        (users s)) s)
    else (Ok tt, with_users (users s ++ [u])%list s).

(** [setattr(instance, attr, value)] on the columns of [User]. *)
Definition setattr (u : User) (attr : string) (v : Value) : User :=
  match v with
  | VStr x =>
      if String.eqb attr "username" then
        mkUser (user_pk u) x (email u) (first_name u) (last_name u) (bio u)
               (role u) (confirmation_code u) (is_active u) (is_staff u)
      else if String.eqb attr "email" then
        mkUser (user_pk u) (username u) x (first_name u) (last_name u) (bio u)
               (role u) (confirmation_code u) (is_active u) (is_staff u)
      else if String.eqb attr "first_name" then
        mkUser (user_pk u) (username u) (email u) x (last_name u) (bio u)
               (role u) (confirmation_code u) (is_active u) (is_staff u)
      else if String.eqb attr "last_name" then
        mkUser (user_pk u) (username u) (email u) (first_name u) x (bio u)
               (role u) (confirmation_code u) (is_active u) (is_staff u)
      else if String.eqb attr "bio" then
        mkUser (user_pk u) (username u) (email u) (first_name u) (last_name u)
               x (role u) (confirmation_code u) (is_active u) (is_staff u)
      else if String.eqb attr "role" then
        mkUser (user_pk u) (username u) (email u) (first_name u) (last_name u)
               (bio u) x (confirmation_code u) (is_active u) (is_staff u)
      else if String.eqb attr "confirmation_code" then
        mkUser (user_pk u) (username u) (email u) (first_name u) (last_name u)
               (bio u) (role u) x (is_active u) (is_staff u)
      else u
  | VBool b =>
      if String.eqb attr "is_active" then
        mkUser (user_pk u) (username u) (email u) (first_name u) (last_name u)
               (bio u) (role u) (confirmation_code u) b (is_staff u)
      else if String.eqb attr "is_staff" then
        mkUser (user_pk u) (username u) (email u) (first_name u) (last_name u)
               (bio u) (role u) (confirmation_code u) (is_active u) b
      else u
  | _ => u
  end.

(** [getattr(instance, attr)] on the same columns; [None] for a name that is
    not one of them. *)
Definition getattr (u : User) (attr : string) : option Value :=
  if String.eqb attr "username" then Some (VStr (username u))
  else if String.eqb attr "email" then Some (VStr (email u))
  else if String.eqb attr "first_name" then Some (VStr (first_name u))
  else if String.eqb attr "last_name" then Some (VStr (last_name u))
  else if String.eqb attr "bio" then Some (VStr (bio u))
  else if String.eqb attr "role" then Some (VStr (role u))
  else if String.eqb attr "confirmation_code"
       then Some (VStr (confirmation_code u))
  else if String.eqb attr "is_active" then Some (VBool (is_active u))
  else if String.eqb attr "is_staff" then Some (VBool (is_staff u))
  else None.

(** [for attr, value in validated_data.items(): setattr(instance, attr,
    value)] *)
Definition setattr_items (instance : User) (validated_data : Dict) : User :=
  fold_left (fun u kv => setattr u (fst kv) (snd kv)) validated_data instance.

(** [ModelSerializer.update]: [setattr] for every item, then [save]. *)
Definition ModelSerializer_update (instance : User) (validated_data : Dict)
  : View User :=
  let instance' := setattr_items instance validated_data in
  _ <~ User_save instance' ;;
  ret instance'.

(** [serializer.save] with keyword arguments, on a serializer bound to an instance. *)
Definition Serializer_save (instance : User) (validated_data kwargs : Dict)
  : View User :=
  ModelSerializer_update instance (dict_merge validated_data kwargs).

(** *** Deletion: [django.db.models.deletion.Collector] *)

Definition references (fk : option Z) (deleted : list Z) : bool :=
  match fk with
  | Some k => mem_pk k deleted
  | None => false
  end.

(** What one foreign key does to its table when the rows [deleted] of the
    table it points to go away: the table after the nulling updates, and the
    primary keys collected for deletion.  [set_null] is absent for a column
    that is not nullable. *)
Definition collect {Row : Type} (policy : on_delete) (pk : Row -> Z)
    (fk : Row -> option Z) (set_null : option (Row -> Row))
    (deleted : list Z) (rows : list Row) : list Row * list Z :=
  match policy with
  | CASCADE =>
      (rows, map pk (filter (fun r => references (fk r) deleted) rows))
  | SET_NULL =>
      match set_null with
      | Some clear =>
          (map (fun r => if references (fk r) deleted then clear r else r) rows,
           [])
      | None => (rows, [])
      end
  end.

(** [DELETE FROM table WHERE id IN deleted] *)
Definition delete_by_pk {Row : Type} (pk : Row -> Z) (deleted : list Z)
    (rows : list Row) : list Row :=
  filter (fun r => negb (mem_pk (pk r) deleted)) rows.

Definition clear_category (t : Title) : Title :=
  mkTitle (title_pk t) (title_name t) (year t) (description t) (genre t) None.

Definition delete_reviews (dead : list Z) (s : Store) : Store :=
  let '(cs, dead_comments) :=
    collect ForeignKeys.Comment_review comment_pk
            (fun c => Some (comment_review c)) None dead (comments s) in
  with_reviews (delete_by_pk review_pk dead (reviews s))
    (with_comments (delete_by_pk comment_pk dead_comments cs) s).

Definition delete_titles (dead : list Z) (s : Store) : Store :=
  let '(rs, dead_reviews) :=
    collect ForeignKeys.Review_title review_pk
            (fun r => Some (review_title r)) None dead (reviews s) in
  let s1 := delete_reviews dead_reviews (with_reviews rs s) in
  with_titles (delete_by_pk title_pk dead (titles s1)) s1.

(** [category.delete()] *)
Definition Category_delete (pk : Z) (s : Store) : Store :=
  let '(ts, dead_titles) :=
    collect ForeignKeys.Title_category title_pk category (Some clear_category)
            [pk] (titles s) in
  let s1 := delete_titles dead_titles (with_titles ts s) in
  with_categories (delete_by_pk category_pk [pk] (categories s1)) s1.

(** [title.delete()] *)
Definition Title_delete (pk : Z) (s : Store) : Store := delete_titles [pk] s.

(** [review.delete()] *)
Definition Review_delete (pk : Z) (s : Store) : Store := delete_reviews [pk] s.

(** *** Aggregation: [annotate(rating=Avg('reviews__score'))] *)

(** The [reviews__score] column of the LEFT OUTER JOIN of one title with its
    reviews: a single NULL when no review references the title. *)
Definition reviews__score (t : Title) (rs : list Review) : list (option Z) :=
  match filter (fun r => review_title r =? title_pk t) rs with
  | [] => [None]
  | joined => map (fun r => Some (score r)) joined
  end.

Fixpoint non_null (column : list (option Z)) : list Z :=
  match column with
  | [] => []
  | Some v :: rest => v :: non_null rest
  | None :: rest => non_null rest
  end.

Definition Sum (values : list Z) : Z := fold_right Z.add 0 values.

(** SQL [AVG]: NULL over no non-NULL value, their sum over their count
    otherwise.  The database hands that quotient back as a floating-point
    number; it is kept exact here, so only what survives the rounding is
    drawn from it: whether it is NULL, which scores it is taken over, and
    bounds by integers. *)
Definition Avg (column : list (option Z)) : option Q :=
  match non_null column with
  | [] => None
  | v :: vs => Some (Qmake (Sum (v :: vs)) (Pos.of_succ_nat (List.length vs)))
  end.

Record AnnotatedTitle : Type := mkAnnotated {
  title : Title;
  rating : option Q
}.

Fixpoint insert_by_name (a : AnnotatedTitle) (sorted : list AnnotatedTitle)
  : list AnnotatedTitle :=
  match sorted with
  | [] => [a]
  | b :: rest =>
      if String.leb (title_name (title a)) (title_name (title b))
      then a :: b :: rest
      else b :: insert_by_name a rest
  end.

(** [order_by('name')] *)
Definition order_by_name (rows : list AnnotatedTitle) : list AnnotatedTitle :=
  fold_right insert_by_name [] rows.

End ORM.
Import ORM.

(** ** api/views.py *)

Module Views.

(** What a request takes from its surroundings. *)
Record Env : Type := mkEnv {
  today_year : Z;        (* [date.today().year] *)
  uuid4 : string;        (* the text of the [uuid.uuid4()] this request draws *)
  smtp_up : bool;        (* whether the mail transport delivers *)
  YAMDB_EMAIL : string   (* [api_yamdb.settings.YAMDB_EMAIL] *)
}.

(** [django.core.mail.send_mail(..., fail_silently=False)] *)
Definition send_mail (env : Env) (subject message from_email : string)
    (recipient_list : list string) : View unit :=
  fun s =>
    if smtp_up env
    then (Ok tt, with_outbox
                   (outbox s ++ [mkMail subject message from_email
                                        recipient_list])%list s)
    else (Raise SMTPException, s).

(** [api/serializers.py] is not part of the sources at hand, so a view takes
    its serializer as an argument: [is_valid(raise_exception=True)] followed
    by the read of [validated_data] the view makes.  Validation reads the
    store and the payload and writes nothing. *)
Definition EmailSerializer : Type := Store -> Dict -> result string.

Definition UserSerializer_partial : Type := Store -> User -> Dict -> result Dict.

Definition run_serializer {A : Type} (is_valid : Store -> result A) : View A :=
  fun s => (is_valid s, s).

(** [class ObtainingConfirmationCodeView]: [post] *)
Definition ObtainingConfirmationCodeView_post
    (ObtainingConfirmationCodeSerializer : EmailSerializer)
    (env : Env) (request : Request) : View Response :=
  email_ <~ run_serializer
              (fun s => ObtainingConfirmationCodeSerializer s (data request)) ;;
  let confirmation_code_ := uuid4 env in
  _ <~ User_objects_get_or_create email_ email_ confirmation_code_ false ;;
  _ <~ send_mail env "Confirmation Code"
         ("confirmation_code: " ++ confirmation_code_)
         (YAMDB_EMAIL env) [email_] ;;
  ret (mkResponse
         [("result", VStr ("Confirmation Code отправлен на " ++ email_))] 200).

(** [RefreshToken.for_user(user)] and its [access_token] property. *)
Definition RefreshToken_for_user (u : User) : Token :=
  mkToken refresh (user_pk u).

Definition access_token (t : Token) : Token :=
  mkToken access (token_user_id t).

(** [class TokenView]: [post] *)
Definition TokenView_post (TokenSerializer : EmailSerializer)
    (request : Request) : View Response :=
  email_ <~ run_serializer (fun s => TokenSerializer s (data request)) ;;
  user_ <~ get_User_or_404 (fun r => String.eqb (email r) email_) ;;
  _ <~ User_save user_ ;;
  let refresh_token := RefreshToken_for_user user_ in
  ret (mkResponse [("token", VJwt (access_token refresh_token))] 200).

(** [class UserViewSet]: the [me] action, bound to GET (and HEAD) and PATCH
    and guarded by [IsAuthenticated]; [to_representation] is
    [serializer.data]. *)
Definition UserViewSet_me (UserSerializer : UserSerializer_partial)
    (to_representation : User -> Dict) (request : Request) : View Response :=
  _ <~ lift (check_permissions [IsAuthenticated] request) ;;
  if negb (py_in (method request) ["GET"; "HEAD"; "PATCH"])
  then raise MethodNotAllowed
  else
    match user request with
    | AnonymousUser => raise NotAuthenticated
    | LoggedIn instance =>
        if String.eqb (method request) "PATCH"
        then
          validated_data <~ run_serializer
            (fun s => UserSerializer s instance (data request)) ;;
          saved <~ Serializer_save instance validated_data
                     [("email", VStr (email instance));
                      ("role", VStr (role instance))] ;;
          ret (mkResponse (to_representation saved) 200)
        else ret (mkResponse (to_representation instance) 200)
    end.

(** [class TitleViewSet]: [queryset] *)
Definition TitleViewSet_queryset (s : Store) : list AnnotatedTitle :=
  order_by_name
    (map (fun t => mkAnnotated t (Avg (reviews__score t (reviews s))))
         (titles s)).

(** [year = models.IntegerField(validators=[validate_year], ...)] *)
Definition Title_year_validators (env : Env) : list (Z -> result unit) :=
  [validate_year (today_year env)].

(** [Field.run_validators] *)
Fixpoint run_validators (validators : list (Z -> result unit)) (value : Z)
  : result unit :=
  match validators with
  | [] => Ok tt
  | v :: rest => _ <- v value ;; run_validators rest value
  end.

(** [TitleViewSet] creating a title ([CreateModelMixin.create]): the policy,
    then validation with the model field's validators, then the INSERT.
    [fields] are the columns the write serializer read from the payload. *)
Definition TitleViewSet_create (env : Env) (request : Request)
    (fields : Title) : View Title :=
  _ <~ lift (check_permissions [IsAdminOrReadOnly] request) ;;
  _ <~ lift (run_validators (Title_year_validators env) (year fields)) ;;
  fun s =>
    let t := mkTitle (next_pk (map title_pk (titles s))) (title_name fields)
                     (year fields) (description fields) (genre fields)
                     (category fields) in
    (Ok t, with_titles (titles s ++ [t])%list s).

(** The policies of the review and comment view sets. *)
Definition ReviewViewSet_permission_classes : list BasePermission :=
  [IsAuthenticatedOrReadOnly; IsAuthorOrStaffOrReadOnly].

Definition CommentViewSet_permission_classes : list BasePermission :=
  [IsAuthenticatedOrReadOnly; IsAuthorOrStaffOrReadOnly].

End Views.
Import Views.

(** ** The serializers as the specification describes them *)

(** Modelled from the spec: [ObtainingConfirmationCodeSerializer] (in
    [api/serializers.py]) is missing; a confirmation-code request carries an
    email, which is all the view reads from it. *)
Definition ObtainingConfirmationCodeSerializer : EmailSerializer :=
  fun _ payload =>
    match dict_get payload "email" with
    | Some (VStr e) => Ok e
    | _ => Raise (ValidationError "email" [])
    end.

(** Modelled from the spec: [TokenSerializer] (in [api/serializers.py]) is
    missing; the exchange is presented with (email, confirmation_code) and
    a code that does not match the one stored for the email is rejected. *)
Definition TokenSerializer : EmailSerializer :=
  fun s payload =>
    match dict_get payload "email", dict_get payload "confirmation_code" with
    | Some (VStr e), Some (VStr c) =>
        if existsb (fun u => String.eqb (email u) e
                             && String.eqb (confirmation_code u) c) (users s)
        then Ok e
        else Raise (ValidationError "confirmation_code" [])
    | _, _ => Raise (ValidationError "required" [])
    end.

(** ** Stores that satisfy the declared constraints *)

Fixpoint distinct {A : Type} (eqb : A -> A -> bool) (xs : list A) : bool :=
  match xs with
  | [] => true
  | x :: rest => negb (existsb (eqb x) rest) && distinct eqb rest
  end.

(** Primary keys, [email] and [username] are unique among the users. *)
Definition consistent (s : Store) : bool :=
  distinct Z.eqb (map user_pk (users s))
  && distinct String.eqb (map email (users s))
  && distinct String.eqb (map username (users s)).

Definition User_by_pk (k : Z) (s : Store) : option User :=
  find (fun r => user_pk r =? k) (users s).

Definition User_by_email (e : string) (s : Store) : option User :=
  find (fun r => String.eqb (email r) e) (users s).

(** The primary keys of the reviews that reference a title. *)
Definition reviews_of_title (k : Z) (s : Store) : list Z :=
  map review_pk (filter (fun r => review_title r =? k) (reviews s)).

(** ** The statements of the specification *)

Module Spec.

(** The administer capability in the specification's words: the admin role,
    or the staff flag. *)
Definition canAdminister (u : User) : bool := admin u || is_staff u.

(** Who may mutate a review or a comment, in the specification's words. *)
Definition may_mutate (u : User) (obj : Obj) : bool :=
  (author_id obj =? user_pk u) || moderator u || canAdminister u.

(** The moderate capability as the specification words it. *)
Definition canModerate_for_moderator_and_admin : Prop :=
  forall u : User,
    moderator u = true <->
    role u = UserRoles.MODERATOR \/ role u = UserRoles.ADMIN.

Definition in_year_range (today_year y : Z) : Prop :=
  -40000 <= y <= today_year + 10.

(** The scores of the reviews that reference a title. *)
Definition review_scores (t : Title) (s : Store) : list Z :=
  map score (filter (fun r => review_title r =? title_pk t) (reviews s)).

Definition stored_code (e : string) (s : Store) : option string :=
  option_map confirmation_code (User_by_email e s).

Definition presentation (e c : string) : Request :=
  mkRequest "POST" AnonymousUser
            [("email", VStr e); ("confirmation_code", VStr c)].

(** Whether the exchange answers a presentation with a response. *)
Definition exchange_accepts (e c : string) (s : Store) : bool :=
  is_ok (fst (TokenView_post TokenSerializer (presentation e c) s)).

(** A re-request as the specification words it: the new code replaces the
    stored one, is accepted afterwards, and the old one is not. *)
Definition reissue_overwrites (env : Env) (request : Request)
    (e old : string) (s : Store) : Prop :=
  let s' := snd (ObtainingConfirmationCodeView_post
                   ObtainingConfirmationCodeSerializer env request s) in
  stored_code e s' = Some (uuid4 env)
  /\ exchange_accepts e (uuid4 env) s' = true
  /\ exchange_accepts e old s' = false.

Definition is_token_pair (b : Dict) (uid : Z) : Prop :=
  exists k1 k2 : string,
    dict_get b k1 = Some (VJwt (mkToken refresh uid))
    /\ dict_get b k2 = Some (VJwt (mkToken access uid)).

(** A matching presentation as the specification words it: the user becomes
    active and a refresh and access pair bound to the user comes back. *)
Definition exchange_activates_and_pairs (e c : string) (s : Store) : Prop :=
  forall u : User,
    In u (users s) -> email u = e -> confirmation_code u = c ->
    (exists resp : Response,
        fst (TokenView_post TokenSerializer (presentation e c) s) = Ok resp
        /\ is_token_pair (body resp) (user_pk u))
    /\ (exists u' : User,
           User_by_pk (user_pk u)
             (snd (TokenView_post TokenSerializer (presentation e c) s))
           = Some u'
           /\ is_active u' = true).

End Spec.

(** ** Concrete rows and stores *)

Module Sample.

Definition alice : User :=
  mkUser 1 "alice@example.com" "alice@example.com" "" "" ""
         UserRoles.USER "old-code" false false.

(** An operator account: staff flag set, plain role. *)
Definition root : User :=
  mkUser 2 "root" "root@example.com" "" "" "" UserRoles.USER "" true true.

Definition boss : User :=
  mkUser 3 "boss" "boss@example.com" "" "" "" UserRoles.ADMIN "" true false.

Definition maria : User :=
  mkUser 4 "maria" "maria@example.com" "" "" "" UserRoles.MODERATOR "" true false.

Definition drama : Category := mkCategory 1 "Drama" "drama".

Definition film : Title := mkTitle 1 "Film" 1999 "" [] (Some 1).

Definition book : Title := mkTitle 2 "Book" 1850 "" [] None.

Definition review8 : Review := mkReview 1 1 "fine" 1 8.

Definition review10 : Review := mkReview 2 1 "great" 4 10.

Definition comment1 : Comment := mkComment 1 2 1 "agreed".

Definition store : Store :=
  mkStore [alice; root; boss; maria] [drama] [] [film; book]
          [review8; review10] [comment1] [].

Definition env : Env := mkEnv 2026 "new-code" true "noreply@example.com".

Definition code_request : Request :=
  mkRequest "POST" AnonymousUser [("email", VStr "alice@example.com")].

Definition delete_by (u : User) : Request := mkRequest "DELETE" (LoggedIn u) [].

Definition patch_me : Request :=
  mkRequest "PATCH" (LoggedIn alice)
            [("email", VStr "eve@example.com"); ("role", VStr "admin");
             ("bio", VStr "hello")].

(** A user serializer that lets every submitted item through. *)
Definition permissive : UserSerializer_partial := fun _ _ payload => Ok payload.

Definition year_fields (y : Z) : Title := mkTitle 0 "Epic" y "" [] None.

End Sample.

(** ** The rest of api/models.py and api/views.py *)

Module Validators.

(** [django.core.validators.MinValueValidator(limit_value, message)], called
    on a value. *)
Definition MinValueValidator (limit_value : Z) (message : string) (value : Z)
  : result unit :=
  if value <? limit_value
  then Raise (ValidationError message
                [("limit_value", limit_value); ("show_value", value);
                 ("value", value)])
  else Ok tt.

(** [django.core.validators.MaxValueValidator(limit_value, message)] *)
Definition MaxValueValidator (limit_value : Z) (message : string) (value : Z)
  : result unit :=
  if value >? limit_value
  then Raise (ValidationError message
                [("limit_value", limit_value); ("show_value", value);
                 ("value", value)])
  else Ok tt.

(** [score = models.IntegerField(validators=[MinValueValidator(1, ...),
    MaxValueValidator(10, ...)])] *)
Definition Review_score_validators : list (Z -> result unit) :=
  [MinValueValidator 1 "Не меньше 1"; MaxValueValidator 10 "Не больше 10"].

End Validators.
Import Validators.

Module Cascade.

(** [user.delete()]: [Review.author] and [Comment.author] are both declared
    [CASCADE], and the comments of a collected review go with it. *)
Definition User_delete (pk : Z) (s : Store) : Store :=
  let '(rs, dead_reviews) :=
    collect ForeignKeys.Review_author review_pk
            (fun r => Some (review_author r)) None [pk] (reviews s) in
  let '(cs, dead_comments) :=
    collect ForeignKeys.Comment_author comment_pk
            (fun c => Some (comment_author c)) None [pk] (comments s) in
  let s1 :=
    delete_reviews dead_reviews
      (with_comments (delete_by_pk comment_pk dead_comments cs)
         (with_reviews rs s)) in
  with_users (delete_by_pk user_pk [pk] (users s1)) s1.

(** Every foreign key of the store points at a stored row. *)
Definition foreign_keys_hold (s : Store) : bool :=
  forallb (fun t => match category t with
                    | Some c => mem_pk c (map category_pk (categories s))
                    | None => true
                    end) (titles s)
  && forallb (fun r => mem_pk (review_title r) (map title_pk (titles s))
                       && mem_pk (review_author r) (map user_pk (users s)))
             (reviews s)
  && forallb (fun c => mem_pk (comment_review c) (map review_pk (reviews s))
                       && mem_pk (comment_author c) (map user_pk (users s)))
             (comments s).

End Cascade.
Import Cascade.

Module Scoped.

(** The keyword arguments the URL gives a view: [self.kwargs]. *)
Definition Kwargs : Type := list (string * Z).

(** [self.kwargs.get(key)] *)
Fixpoint kwargs_get (kwargs : Kwargs) (key : string) : option Z :=
  match kwargs with
  | [] => None
  | (k, v) :: rest => if String.eqb k key then Some v else kwargs_get rest key
  end.

(** [pub_date] is written once, by [auto_now_add], and never again: it is
    kept as a column of its own, indexed by primary key. *)
Record Timestamps : Type := mkTimestamps {
  review_pub_date : Z -> Z;
  comment_pub_date : Z -> Z
}.

Fixpoint insert_newest {Row : Type} (stamp : Row -> Z) (a : Row)
    (sorted : list Row) : list Row :=
  match sorted with
  | [] => [a]
  | b :: rest =>
      if stamp b <=? stamp a
      then a :: b :: rest
      else b :: insert_newest stamp a rest
  end.

(** [class Meta: ordering = ['-pub_date']] *)
Definition newest_first {Row : Type} (stamp : Row -> Z) (rows : list Row)
  : list Row :=
  fold_right (insert_newest stamp) [] rows.

(** [get_object_or_404(queryset, id=...)]; a missing keyword argument is
    [None], which no primary key equals. *)
Definition get_or_404 {Row : Type} (pk : Row -> Z) (id_ : option Z)
    (rows : list Row) : result Row :=
  match id_ with
  | None => Raise Http404
  | Some k =>
      match filter (fun r => pk r =? k) rows with
      | [] => Raise Http404
      | [r] => Ok r
      | _ => Raise MultipleObjectsReturned
      end
  end.

Definition get_Title_or_404 (id_ : option Z) : View Title :=
  fun s => (get_or_404 title_pk id_ (titles s), s).

Definition get_Review_or_404 (id_ : option Z) : View Review :=
  fun s => (get_or_404 review_pk id_ (reviews s), s).

(** [title.reviews.all()] *)
Definition Title_reviews (clock : Timestamps) (t : Title) (s : Store)
  : list Review :=
  newest_first (fun r => review_pub_date clock (review_pk r))
    (filter (fun r => review_title r =? title_pk t) (reviews s)).

(** [review.comments.all()] *)
Definition Review_comments (clock : Timestamps) (r : Review) (s : Store)
  : list Comment :=
  newest_first (fun c => comment_pub_date clock (comment_pk c))
    (filter (fun c => comment_review c =? review_pk r) (comments s)).

(** [class ReviewViewSet]: [get_queryset] *)
Definition ReviewViewSet_get_queryset (clock : Timestamps) (kwargs : Kwargs)
  : View (list Review) :=
  title_ <~ get_Title_or_404 (kwargs_get kwargs "title_id") ;;
  fun s => (Ok (Title_reviews clock title_ s), s).

(** [class ReviewViewSet]: [perform_create], on the columns the serializer
    validated; [author] is [self.request.user]. *)
Definition ReviewViewSet_perform_create (kwargs : Kwargs) (author : User)
    (fields : Review) : View Review :=
  title_ <~ get_Title_or_404 (kwargs_get kwargs "title_id") ;;
  fun s =>
    let r := mkReview (next_pk (map review_pk (reviews s))) (title_pk title_)
                      (review_text fields) (user_pk author) (score fields) in
    (Ok r, with_reviews (reviews s ++ [r])%list s).

(** [class CommentViewSet]: [get_queryset] *)
Definition CommentViewSet_get_queryset (clock : Timestamps) (kwargs : Kwargs)
  : View (list Comment) :=
  review_ <~ get_Review_or_404 (kwargs_get kwargs "review_id") ;;
  fun s => (Ok (Review_comments clock review_ s), s).


(** [ReviewViewSet] deleting a review ([DestroyModelMixin.destroy]): the
    policies, [get_object] on the queryset of the title (which ends with the
    object policies), then [instance.delete()]. *)
Definition ReviewViewSet_destroy (clock : Timestamps) (kwargs : Kwargs)
    (request : Request) : View Response :=
  _ <~ lift (check_permissions ReviewViewSet_permission_classes request) ;;
  queryset <~ ReviewViewSet_get_queryset clock kwargs ;;
  instance <~ lift (get_or_404 review_pk (kwargs_get kwargs "pk") queryset) ;;
  _ <~ lift (check_object_permissions ReviewViewSet_permission_classes
               request (ReviewObj instance)) ;;
  fun s => (Ok (mkResponse [] 204), Review_delete (review_pk instance) s).

(** [CommentViewSet] deleting a comment. *)
Definition CommentViewSet_destroy (clock : Timestamps) (kwargs : Kwargs)
    (request : Request) : View Response :=
  _ <~ lift (check_permissions CommentViewSet_permission_classes request) ;;
  queryset <~ CommentViewSet_get_queryset clock kwargs ;;
  instance <~ lift (get_or_404 comment_pk (kwargs_get kwargs "pk") queryset) ;;
  _ <~ lift (check_object_permissions CommentViewSet_permission_classes
               request (CommentObj instance)) ;;
  fun s =>
    (Ok (mkResponse [] 204),
     with_comments (delete_by_pk comment_pk [comment_pk instance] (comments s))
                   s).

End Scoped.
Import Scoped.

(** The order [order_by('name')] asks for. *)
Definition by_name (a b : AnnotatedTitle) : Prop :=
  String.leb (title_name (title a)) (title_name (title b)) = true.

Module Scenario.

Definition clock : Timestamps := mkTimestamps (fun k => 100 * k) (fun k => 7 * k).

Definition film_route : Kwargs := [("title_id", 1)].

Definition fresh_request : Request :=
  mkRequest "POST" AnonymousUser [("email", VStr "dana@example.com")].

Definition post_by (u : User) : Request := mkRequest "POST" (LoggedIn u) [].

Definition second_opinion : Review := mkReview 0 0 "again" 0 3.

End Scenario.

(** * Properties *)

Import Spec.

(** ** Roles and capabilities *)

Section Capabilities.

Variable u : User.

Lemma moderator_iff : moderator u = true <-> role u = UserRoles.MODERATOR.
Proof. unfold moderator. apply String.eqb_eq. Qed.

Lemma admin_iff : admin u = true <-> role u = UserRoles.ADMIN.
Proof. unfold admin. apply String.eqb_eq. Qed.

End Capabilities.

(** C2, as the code has it: the [moderator] property depends on the stored
    role alone and holds exactly for the moderator role; for the admin role,
    as for every other role, it is false. *)
Theorem moderator_only_for_moderator_role :
  forall u : User,
    (moderator u = true <-> role u = UserRoles.MODERATOR)
    /\ (role u = UserRoles.ADMIN -> moderator u = false)
    /\ (forall v : User, role v = role u -> moderator v = moderator u).
Proof.
  intro u. split; [apply moderator_iff | split].
  - intro H. unfold moderator. rewrite H. reflexivity.
  - intros v H. unfold moderator. rewrite H. reflexivity.
Qed.

Lemma moderator_only_for_moderator_role_witness :
  moderator Sample.boss = false.
Proof.
  apply (proj1 (proj2 (moderator_only_for_moderator_role Sample.boss))).
  reflexivity.
Defined.

(** C2, as the specification words it, fails: a user whose role is admin
    does not have the [moderator] property. *)
Lemma admin_role_is_not_moderator : ~ canModerate_for_moderator_and_admin.
Proof.
  intro H. destruct (H Sample.boss) as [_ H']. 
  assert (moderator Sample.boss = true) as E by (apply H'; right; reflexivity).
  discriminate E.
Qed.

(** C10: no user has both the [moderator] and the [admin] property, the two
    being the stored role compared with two different constants. *)
Theorem moderator_admin_exclusive :
  forall u : User, moderator u && admin u = false.
Proof.
  intro u. destruct (moderator u) eqn:Hm; [| reflexivity].
  destruct (admin u) eqn:Ha; [| reflexivity].
  apply moderator_iff in Hm. apply admin_iff in Ha.
  rewrite Hm in Ha. discriminate Ha.
Qed.

(** ** The policies *)

Section Policies.

Variable request : Request.

Lemma unsafe_not_in_SAFE_METHODS :
  py_in (method request) SAFE_METHODS = false <->
  method request <> "GET" /\ method request <> "HEAD"
  /\ method request <> "OPTIONS".
Proof.
  unfold py_in, SAFE_METHODS. simpl.
  destruct (String.eqb_spec (method request) "GET");
  destruct (String.eqb_spec (method request) "HEAD");
  destruct (String.eqb_spec (method request) "OPTIONS");
  simpl; intuition congruence.
Qed.

Lemma IsAdmin_logged_in (u : User) :
  user request = LoggedIn u ->
  IsAdmin_has_permission request = Ok (Some (is_staff u || admin u)).
Proof.
  intro Hu.
  unfold IsAdmin_has_permission, subject_is_staff, subject_admin, py_or, bind.
  rewrite Hu. simpl. destruct (is_staff u); reflexivity.
Qed.

Lemma IsAdminOrReadOnly_safe :
  py_in (method request) SAFE_METHODS = true ->
  IsAdminOrReadOnly_has_permission request = Ok (Some true).
Proof.
  intro Hs. unfold IsAdminOrReadOnly_has_permission. rewrite Hs. reflexivity.
Qed.

Lemma IsAdminOrReadOnly_unsafe :
  py_in (method request) SAFE_METHODS = false ->
  IsAdminOrReadOnly_has_permission request = IsAdmin_has_permission request.
Proof.
  intro Hs. unfold IsAdminOrReadOnly_has_permission, IsAdmin_has_permission.
  rewrite Hs. reflexivity.
Qed.

(** The object policy on an authenticated subject: a decision is always
    reached, and it is the disjunction the source spells out. *)
Lemma IsAuthorOrStaffOrReadOnly_logged_in (u : User) (obj : Obj) :
  user request = LoggedIn u ->
  IsAuthorOrStaffOrReadOnly_has_object_permission request obj
  = Ok (Some (py_in (method request) SAFE_METHODS
              || (author_id obj =? user_pk u) || admin u || moderator u)).
Proof.
  intro Hu.
  unfold IsAuthorOrStaffOrReadOnly_has_object_permission, author_eq,
    subject_admin, subject_moderator, py_or, bind.
  rewrite Hu.
  destruct (py_in (method request) SAFE_METHODS); [reflexivity |].
  destruct (author_id obj =? user_pk u); [reflexivity |].
  destruct (admin u); reflexivity.
Qed.

Lemma IsAuthorOrStaffOrReadOnly_safe (obj : Obj) :
  py_in (method request) SAFE_METHODS = true ->
  IsAuthorOrStaffOrReadOnly_has_object_permission request obj = Ok (Some true).
Proof.
  intro Hs. unfold IsAuthorOrStaffOrReadOnly_has_object_permission.
  rewrite Hs. reflexivity.
Qed.

(** An anonymous mutation never reaches the object policy: the view sets
    run [IsAuthenticatedOrReadOnly] first and it refuses. *)
Lemma anonymous_mutation_refused (obj : Obj) :
  user request = AnonymousUser ->
  py_in (method request) SAFE_METHODS = false ->
  authorize_object ReviewViewSet_permission_classes request obj
  = Raise NotAuthenticated.
Proof.
  intros Hu Hs.
  unfold authorize_object, ReviewViewSet_permission_classes, check_permissions,
    IsAuthenticatedOrReadOnly, has_permission, permission_denied, bind.
  rewrite Hu, Hs. reflexivity.
Qed.

End Policies.

(** C9: on a mutating request of an authenticated subject the two admin
    policies return the same value, and both allow exactly when the subject
    has the staff flag or the admin role. *)
Theorem admin_policies_agree_on_mutation :
  forall (request : Request) (u : User),
    user request = LoggedIn u ->
    py_in (method request) SAFE_METHODS = false ->
    IsAdminOrReadOnly_has_permission request = IsAdmin_has_permission request
    /\ (allows (IsAdmin_has_permission request) = true
        <-> is_staff u = true \/ role u = UserRoles.ADMIN)
    /\ (allows (IsAdminOrReadOnly_has_permission request) = true
        <-> is_staff u = true \/ role u = UserRoles.ADMIN).
Proof.
  intros request u Hu Hs.
  pose proof (IsAdminOrReadOnly_unsafe request Hs) as Heq.
  assert (allows (IsAdmin_has_permission request) = true
          <-> is_staff u = true \/ role u = UserRoles.ADMIN) as Hd.
  { rewrite (IsAdmin_logged_in request u Hu). simpl.
    rewrite <- admin_iff.
    destruct (is_staff u), (admin u); simpl; intuition congruence. }
  split; [exact Heq | split; [exact Hd | rewrite Heq; exact Hd]].
Qed.

Lemma admin_policies_agree_on_mutation_witness :
  IsAdminOrReadOnly_has_permission (Sample.delete_by Sample.root)
  = IsAdmin_has_permission (Sample.delete_by Sample.root).
Proof.
  apply (admin_policies_agree_on_mutation
           (Sample.delete_by Sample.root) Sample.root);
    reflexivity.
Defined.

(** C1, at the input where the code departs from it: an operator account
    (staff flag, plain role) that did not write the review is one of the
    subjects the specification lets mutate it, and the admin policy of the
    same module does treat it as an administrator, yet the object policy
    returns false and the review view set refuses the request. *)
Theorem staff_flag_ignored_by_object_policy :
  may_mutate Sample.root (ReviewObj Sample.review8) = true
  /\ IsAdmin_has_permission (Sample.delete_by Sample.root) = Ok (Some true)
  /\ IsAuthorOrStaffOrReadOnly_has_object_permission
       (Sample.delete_by Sample.root) (ReviewObj Sample.review8)
     = Ok (Some false)
  /\ authorize_object ReviewViewSet_permission_classes
       (Sample.delete_by Sample.root) (ReviewObj Sample.review8)
     = Raise PermissionDenied.
Proof. repeat split. Qed.

(** ** Year validation *)

Lemma validate_year_accepts (today y : Z) :
  validate_year today y = Ok tt <-> in_year_range today y.
Proof.
  unfold validate_year, in_year_range.
  destruct (Z.gtb_spec y (today + 10)); destruct (Z.ltb_spec y (-40000));
    simpl; split; intro Hv; try discriminate Hv; try reflexivity; lia.
Qed.

Lemma validate_year_rejects (today y : Z) :
  ~ in_year_range today y ->
  validate_year today y
  = Raise (ValidationError
             "the year %(value)s is outside the valid date range"
             [("value", y)]).
Proof.
  unfold validate_year, in_year_range. intro Hout.
  destruct (Z.gtb_spec y (today + 10)); destruct (Z.ltb_spec y (-40000));
    simpl; try reflexivity; lia.
Qed.

(** C6: a year is accepted exactly when it lies between -40000 and the
    current year plus ten; outside that range the validator raises its
    validation error, and a title created with such a year is refused with
    the store left as it was. *)
Theorem validate_year_range :
  forall (env : Env) (y : Z),
    (validate_year (today_year env) y = Ok tt
     <-> -40000 <= y <= today_year env + 10)
    /\ (~ (-40000 <= y <= today_year env + 10) ->
        validate_year (today_year env) y
        = Raise (ValidationError
                   "the year %(value)s is outside the valid date range"
                   [("value", y)])
        /\ forall (request : Request) (fields : Title) (s : Store),
             year fields = y ->
             is_ok (fst (TitleViewSet_create env request fields s)) = false
             /\ snd (TitleViewSet_create env request fields s) = s).
Proof.
  intros env y. split; [apply validate_year_accepts |].
  intro Hout. pose proof (validate_year_rejects (today_year env) y Hout) as Hr.
  split; [exact Hr |].
  intros request fields s Hy.
  unfold TitleViewSet_create, bindV, lift, Title_year_validators.
  destruct (check_permissions [IsAdminOrReadOnly] request); simpl;
    [| split; reflexivity].
  rewrite Hy, Hr. simpl. split; reflexivity.
Qed.

Lemma validate_year_range_witness :
  is_ok (fst (TitleViewSet_create Sample.env (Sample.delete_by Sample.boss)
                (Sample.year_fields 2037) Sample.store)) = false
  /\ snd (TitleViewSet_create Sample.env (Sample.delete_by Sample.boss)
            (Sample.year_fields 2037) Sample.store) = Sample.store.
Proof.
  refine (proj2 (proj2 (validate_year_range Sample.env 2037) _)
                (Sample.delete_by Sample.boss) (Sample.year_fields 2037)
                Sample.store eq_refl).
  simpl. lia.
Defined.

(** ** Lists of rows *)

Section Rows.

Context {Row : Type}.

Lemma mem_pk_In (k : Z) (pks : list Z) : mem_pk k pks = true <-> In k pks.
Proof.
  unfold mem_pk. rewrite existsb_exists. split.
  - intros [x [Hin Heq]]. apply Z.eqb_eq in Heq. subst x. exact Hin.
  - intro Hin. exists k. split; [exact Hin | apply Z.eqb_refl].
Qed.

Lemma delete_by_pk_In (pk : Row -> Z) (dead : list Z) (rows : list Row) (r : Row) :
  In r (delete_by_pk pk dead rows) <-> In r rows /\ ~ In (pk r) dead.
Proof.
  unfold delete_by_pk. rewrite filter_In, negb_true_iff.
  rewrite <- mem_pk_In. destruct (mem_pk (pk r) dead); intuition congruence.
Qed.

Lemma delete_by_pk_nil (pk : Row -> Z) (rows : list Row) :
  delete_by_pk pk [] rows = rows.
Proof.
  unfold delete_by_pk. induction rows as [| r rows IH]; simpl;
    [reflexivity | f_equal; exact IH].
Qed.

Lemma collected_nil (pk : Row -> Z) (fk : Row -> option Z) (rows : list Row) :
  snd (collect CASCADE pk fk None [] rows) = [].
Proof.
  simpl. induction rows as [| r rows IH]; simpl; [reflexivity |].
  destruct (fk r); simpl; exact IH.
Qed.

Lemma fresh_key {K : Type} (key : Row -> K) (eqb : K -> K -> bool)
    (r : Row) (rows : list Row) :
  (forall a b, eqb a b = true <-> a = b) ->
  existsb (eqb (key r)) (map key rows) = false ->
  forall z, In z rows -> key r <> key z.
Proof.
  intros Heqb Hfresh z Hz Hk.
  assert (existsb (eqb (key r)) (map key rows) = true) as Hex.
  { apply existsb_exists. exists (key z). split;
      [apply in_map; exact Hz | apply Heqb; exact Hk]. }
  congruence.
Qed.

Lemma distinct_inj {K : Type} (key : Row -> K) (eqb : K -> K -> bool)
    (rows : list Row) :
  (forall a b, eqb a b = true <-> a = b) ->
  distinct eqb (map key rows) = true ->
  forall x y, In x rows -> In y rows -> key x = key y -> x = y.
Proof.
  intro Heqb. induction rows as [| r rows IH]; simpl; [contradiction |].
  intro Hd. apply andb_true_iff in Hd. destruct Hd as [Hfresh Hd].
  apply negb_true_iff in Hfresh.
  pose proof (fresh_key key eqb r rows Heqb Hfresh) as Hne.
  intros x y [Hx | Hx] [Hy | Hy] Hk.
  - congruence.
  - subst x. exfalso. exact (Hne y Hy Hk).
  - subst y. exfalso. exact (Hne x Hx (eq_sym Hk)).
  - exact (IH Hd x y Hx Hy Hk).
Qed.

End Rows.

(** ** Deletion *)

Lemma delete_reviews_nil (s : Store) : delete_reviews [] s = s.
Proof.
  unfold delete_reviews, ForeignKeys.Comment_review.
  destruct (collect CASCADE comment_pk (fun c => Some (comment_review c)) None
                    [] (comments s)) as [cs dead] eqn:Hc.
  pose proof (collected_nil comment_pk (fun c => Some (comment_review c))
                            (comments s)) as Hnil.
  rewrite Hc in Hnil. simpl in Hnil. subst dead.
  simpl in Hc. injection Hc as Hcs _. subst cs.
  rewrite !delete_by_pk_nil. destruct s; reflexivity.
Qed.

Lemma delete_titles_nil (s : Store) : delete_titles [] s = s.
Proof.
  unfold delete_titles, ForeignKeys.Review_title.
  destruct (collect CASCADE review_pk (fun r => Some (review_title r)) None
                    [] (reviews s)) as [rs dead] eqn:Hc.
  pose proof (collected_nil review_pk (fun r => Some (review_title r))
                            (reviews s)) as Hnil.
  rewrite Hc in Hnil. simpl in Hnil. subst dead.
  simpl in Hc. injection Hc as Hrs _. subst rs.
  rewrite delete_reviews_nil. simpl. rewrite delete_by_pk_nil.
  destruct s; reflexivity.
Qed.

Lemma Category_delete_titles (pk : Z) (s : Store) :
  titles (Category_delete pk s)
  = map (fun t => if references (category t) [pk] then clear_category t else t)
        (titles s).
Proof.
  unfold Category_delete, ForeignKeys.Title_category, collect.
  cbv beta iota zeta. rewrite delete_titles_nil. reflexivity.
Qed.

Lemma Category_delete_reviews (pk : Z) (s : Store) :
  reviews (Category_delete pk s) = reviews s
  /\ comments (Category_delete pk s) = comments s.
Proof.
  unfold Category_delete, ForeignKeys.Title_category, collect.
  cbv beta iota zeta. rewrite delete_titles_nil. split; reflexivity.
Qed.

Lemma Title_delete_tables (k : Z) (s : Store) :
  titles (Title_delete k s) = delete_by_pk title_pk [k] (titles s)
  /\ reviews (Title_delete k s)
     = delete_by_pk review_pk (reviews_of_title k s) (reviews s)
  /\ comments (Title_delete k s)
     = delete_by_pk comment_pk
         (map comment_pk
            (filter (fun c => mem_pk (comment_review c) (reviews_of_title k s))
                    (comments s)))
         (comments s).
Proof.
  assert (forall rs : list Review,
             filter (fun r => references (Some (review_title r)) [k]) rs
             = filter (fun r => review_title r =? k) rs) as Hf.
  { intro rs. apply filter_ext. intro r. simpl. apply orb_false_r. }
  unfold Title_delete, delete_titles, delete_reviews, reviews_of_title,
    ForeignKeys.Review_title, ForeignKeys.Comment_review.
  simpl. rewrite Hf. repeat split.
Qed.

Lemma reviews_of_title_In (k : Z) (s : Store) (r : Review) :
  In r (reviews s) -> review_title r = k ->
  In (review_pk r) (reviews_of_title k s).
Proof.
  intros Hin Ht. unfold reviews_of_title. apply in_map. apply filter_In.
  split; [exact Hin | apply Z.eqb_eq; exact Ht].
Qed.

Lemma Category_delete_categories (pk : Z) (s : Store) :
  categories (Category_delete pk s)
  = delete_by_pk category_pk [pk] (categories s).
Proof.
  unfold Category_delete, ForeignKeys.Title_category, collect.
  cbv beta iota zeta. rewrite delete_titles_nil. reflexivity.
Qed.

(** C7: deleting a category removes that category and no other; every title
    that named it stays with all its other columns and with its category
    reference null, every other title stays as it is, no title appears or
    disappears, and reviews and comments are not touched.  Deleting a title
    removes the title, every review that belongs to it and every comment
    that belongs to one of those reviews, and the reviews of the other
    titles stay. *)
Theorem on_delete_set_null_and_cascade :
  forall s : Store,
    (forall c t, In t (titles s) -> category t = Some c ->
       In (mkTitle (title_pk t) (title_name t) (year t) (description t)
                   (genre t) None)
          (titles (Category_delete c s)))
    /\ (forall c t, In t (titles s) -> category t <> Some c ->
          In t (titles (Category_delete c s)))
    /\ (forall c t', In t' (titles (Category_delete c s)) ->
          exists t, In t (titles s)
                    /\ title_pk t' = title_pk t
                    /\ title_name t' = title_name t /\ year t' = year t
                    /\ description t' = description t /\ genre t' = genre t
                    /\ ((category t = Some c /\ category t' = None)
                        \/ (category t <> Some c
                            /\ category t' = category t)))
    /\ (forall c, map title_pk (titles (Category_delete c s))
                  = map title_pk (titles s))
    /\ (forall c t, In t (titles (Category_delete c s)) -> category t <> Some c)
    /\ (forall c x, In x (categories (Category_delete c s))
                    <-> In x (categories s) /\ category_pk x <> c)
    /\ (forall c, reviews (Category_delete c s) = reviews s
                  /\ comments (Category_delete c s) = comments s)
    /\ (forall k t, In t (titles (Title_delete k s)) -> title_pk t <> k)
    /\ (forall k r, In r (reviews (Title_delete k s)) -> review_title r <> k)
    /\ (forall k r c, In r (reviews s) -> review_title r = k ->
          In c (comments (Title_delete k s)) -> comment_review c <> review_pk r)
    /\ (distinct Z.eqb (map review_pk (reviews s)) = true ->
        forall k r, In r (reviews s) -> review_title r <> k ->
          In r (reviews (Title_delete k s))).
Proof.
  intro s.
  assert (forall (c : Z) (t : Title),
             references (category t) [c] = true <-> category t = Some c)
    as Href.
  { intros c t. destruct (category t) as [k |]; simpl.
    - rewrite orb_false_r, Z.eqb_eq. split; congruence.
    - split; discriminate. }
  split; [| split; [| split; [| split; [| split; [| split; [| split;
    [| split; [| split; [| split]]]]]]]]].
  - intros c t Hin Hcat. rewrite Category_delete_titles.
    apply in_map_iff. exists t. split; [| exact Hin].
    rewrite (proj2 (Href c t) Hcat). reflexivity.
  - intros c t Hin Hcat. rewrite Category_delete_titles.
    apply in_map_iff. exists t. split; [| exact Hin].
    destruct (references (category t) [c]) eqn:Hr; [| reflexivity].
    exfalso. apply Hcat. apply Href. exact Hr.
  - intros c t' Hin. rewrite Category_delete_titles in Hin.
    apply in_map_iff in Hin. destruct Hin as [t [Ht Hin]].
    exists t. split; [exact Hin |].
    destruct (references (category t) [c]) eqn:Hr; subst t'.
    + simpl. repeat split. left. split; [apply Href; exact Hr | reflexivity].
    + repeat split. right. split; [| reflexivity].
      intro Hcat. apply Href in Hcat. congruence.
  - intro c. rewrite Category_delete_titles, map_map. apply map_ext.
    intro t. destruct (references (category t) [c]); reflexivity.
  - intros c t Hin. rewrite Category_delete_titles in Hin.
    apply in_map_iff in Hin. destruct Hin as [t0 [Ht0 _]].
    destruct (references (category t0) [c]) eqn:Hr; subst t.
    + simpl. discriminate.
    + intro Hcat. apply Href in Hcat. congruence.
  - intros c x. rewrite Category_delete_categories, delete_by_pk_In.
    simpl. intuition congruence.
  - intro c. apply Category_delete_reviews.
  - intros k t Hin. destruct (Title_delete_tables k s) as [Ht _].
    rewrite Ht in Hin. apply delete_by_pk_In in Hin. destruct Hin as [_ Hk].
    intro Heq. apply Hk. left. symmetry. exact Heq.
  - intros k r Hin. destruct (Title_delete_tables k s) as [_ [Hr _]].
    rewrite Hr in Hin. apply delete_by_pk_In in Hin. destruct Hin as [Hin Hk].
    intro Ht. apply Hk. apply reviews_of_title_In; assumption.
  - intros k r c Hr Ht Hc. destruct (Title_delete_tables k s) as [_ [_ Hcs]].
    rewrite Hcs in Hc. apply delete_by_pk_In in Hc. destruct Hc as [Hc Hk].
    intro Hrf. apply Hk. apply in_map. apply filter_In.
    split; [exact Hc |]. apply mem_pk_In. rewrite Hrf.
    apply reviews_of_title_In; assumption.
  - intros Hd k r Hin Ht. destruct (Title_delete_tables k s) as [_ [Hr _]].
    rewrite Hr. apply delete_by_pk_In. split; [exact Hin |].
    intro Hdead. unfold reviews_of_title in Hdead.
    apply in_map_iff in Hdead. destruct Hdead as [r2 [Hpk Hr2]].
    apply filter_In in Hr2. destruct Hr2 as [Hr2 Hk]. apply Z.eqb_eq in Hk.
    assert (r2 = r) as Heq.
    { apply (distinct_inj review_pk Z.eqb (reviews s) Z.eqb_eq Hd);
        assumption. }
    subst r2. exact (Ht Hk).
Qed.

Lemma on_delete_set_null_and_cascade_witness :
  In (mkTitle 1 "Film" 1999 "" [] None)
     (titles (Category_delete 1 Sample.store))
  /\ In Sample.book (titles (Category_delete 1 Sample.store))
  /\ ~ In Sample.review10 (reviews (Title_delete 1 Sample.store)).
Proof.
  split; [| split].
  - apply (proj1 (on_delete_set_null_and_cascade Sample.store) 1 Sample.film).
    + simpl. left. reflexivity.
    + reflexivity.
  - apply (proj1 (proj2 (on_delete_set_null_and_cascade Sample.store))
                 1 Sample.book).
    + simpl. right. left. reflexivity.
    + discriminate.
  - intro Hin.
    apply (proj1 (proj2 (proj2 (proj2 (proj2 (proj2 (proj2 (proj2 (proj2
             (on_delete_set_null_and_cascade Sample.store)))))))))
             1 Sample.review10 Hin).
    reflexivity.
Defined.

(** ** Rating *)

Lemma insert_by_name_In (a x : AnnotatedTitle) (l : list AnnotatedTitle) :
  In x (insert_by_name a l) <-> x = a \/ In x l.
Proof.
  induction l as [| b l IH]; simpl.
  - intuition congruence.
  - destruct (String.leb (title_name (title a)) (title_name (title b)));
      simpl; [intuition congruence |].
    rewrite IH. intuition congruence.
Qed.

Lemma order_by_name_In (x : AnnotatedTitle) (l : list AnnotatedTitle) :
  In x (order_by_name l) <-> In x l.
Proof.
  unfold order_by_name. induction l as [| a l IH]; simpl; [tauto |].
  rewrite insert_by_name_In, IH. intuition congruence.
Qed.

Lemma non_null_scores (rs : list Review) :
  non_null (map (fun r => Some (score r)) rs) = map score rs.
Proof.
  induction rs as [| r rs IH]; simpl; [reflexivity | rewrite IH; reflexivity].
Qed.

(** ** The [me] action *)

Lemma dict_get_None (d : Dict) (k : string) :
  dict_get d k = None -> forall v, ~ In (k, v) d.
Proof.
  induction d as [| [k0 v0] d IH]; simpl; [tauto |].
  destruct (String.eqb_spec k0 k) as [Heq | Hne]; [discriminate |].
  intros Hnone v [Hhd | Htl]; [congruence | exact (IH Hnone v Htl)].
Qed.

Lemma dict_set_key (d : Dict) (k : string) (v v' : Value) :
  In (k, v') (dict_set d k v) -> v' = v.
Proof.
  unfold dict_set. destruct (dict_get d k) as [old |] eqn:Hget.
  - intro Hin. apply in_map_iff in Hin. destruct Hin as [[k0 x] [Heq _]].
    simpl in Heq. destruct (String.eqb_spec k0 k); congruence.
  - intro Hin. apply in_app_or in Hin. destruct Hin as [Hin | [Hin | []]].
    + exfalso. exact (dict_get_None d k Hget v' Hin).
    + congruence.
Qed.

Lemma dict_set_other (P : Value -> Prop) (d : Dict) (k k' : string)
    (v : Value) :
  k' <> k ->
  (forall v', In (k', v') d -> P v') ->
  forall v', In (k', v') (dict_set d k v) -> P v'.
Proof.
  intros Hne Hall v'. unfold dict_set. destruct (dict_get d k) as [old |].
  - intro Hin. apply in_map_iff in Hin. destruct Hin as [[k0 x] [Heq Hin]].
    simpl in Heq. destruct (String.eqb_spec k0 k).
    + congruence.
    + injection Heq as Hk Hv. subst k0 x. exact (Hall v' Hin).
  - intro Hin. apply in_app_or in Hin. destruct Hin as [Hin | [Hin | []]].
    + exact (Hall v' Hin).
    + congruence.
Qed.

Ltac by_attribute k :=
  repeat match goal with
         | |- context [String.eqb k ?c] => destruct (String.eqb_spec k c)
         end;
  simpl; auto.

Lemma setattr_pk (u : User) (k : string) (v : Value) :
  user_pk (setattr u k v) = user_pk u.
Proof. unfold setattr. destruct v; by_attribute k. Qed.

Lemma setattr_email (u : User) (k : string) (v : Value) :
  email (setattr u k v) = email u
  \/ (k = "email" /\ v = VStr (email (setattr u k v))).
Proof. unfold setattr. destruct v; by_attribute k. Qed.

Lemma setattr_role (u : User) (k : string) (v : Value) :
  role (setattr u k v) = role u
  \/ (k = "role" /\ v = VStr (role (setattr u k v))).
Proof. unfold setattr. destruct v; by_attribute k. Qed.

Lemma setattr_other (u : User) (k attr : string) (v : Value) :
  k <> attr -> getattr (setattr u k v) attr = getattr u attr.
Proof.
  intro Hne. unfold setattr.
  destruct v; by_attribute k; subst; unfold getattr; by_attribute attr;
    congruence.
Qed.

Lemma update_pk (d : Dict) (u : User) :
  user_pk (setattr_items u d) = user_pk u.
Proof.
  unfold setattr_items. revert u.
  induction d as [| [k v] d IH]; intro u; simpl; [reflexivity |].
  rewrite IH. apply setattr_pk.
Qed.

Lemma update_email (d : Dict) (e : string) (u : User) :
  (forall v, In ("email", v) d -> v = VStr e) ->
  email u = e -> email (setattr_items u d) = e.
Proof.
  unfold setattr_items. revert u.
  induction d as [| [k v] d IH]; intros u Hall He; simpl; [exact He |].
  apply IH; [intros v' Hin; apply Hall; right; exact Hin |].
  destruct (setattr_email u k v) as [Hsame | [Hk Hv]]; [congruence |].
  subst k. assert (v = VStr e) as Hve by (apply Hall; left; reflexivity).
  congruence.
Qed.

Lemma update_role (d : Dict) (e : string) (u : User) :
  (forall v, In ("role", v) d -> v = VStr e) ->
  role u = e -> role (setattr_items u d) = e.
Proof.
  unfold setattr_items. revert u.
  induction d as [| [k v] d IH]; intros u Hall He; simpl; [exact He |].
  apply IH; [intros v' Hin; apply Hall; right; exact Hin |].
  destruct (setattr_role u k v) as [Hsame | [Hk Hv]]; [congruence |].
  subst k. assert (v = VStr e) as Hve by (apply Hall; left; reflexivity).
  congruence.
Qed.

Lemma update_other (d : Dict) (attr : string) (u : User) :
  (forall v, ~ In (attr, v) d) ->
  getattr (setattr_items u d) attr = getattr u attr.
Proof.
  unfold setattr_items. revert u.
  induction d as [| [k v] d IH]; intros u Hnone; simpl; [reflexivity |].
  rewrite IH; [| intros v' Hin; apply (Hnone v'); right; exact Hin].
  apply setattr_other. intro Hk. subst k.
  apply (Hnone v). left. reflexivity.
Qed.

(** What the two keyword arguments of [save] do to the validated items. *)
Lemma merged_items (validated_data : Dict) (e r : string) :
  let merged := dict_merge validated_data
                  [("email", VStr e); ("role", VStr r)] in
  (forall v, In ("email", v) merged -> v = VStr e)
  /\ (forall v, In ("role", v) merged -> v = VStr r)
  /\ (forall attr, attr <> "email" -> attr <> "role" ->
        dict_get validated_data attr = None ->
        forall v, ~ In (attr, v) merged).
Proof.
  unfold dict_merge. simpl. repeat apply conj.
  - apply dict_set_other; [discriminate |]. intro v. apply dict_set_key.
  - intro v. apply dict_set_key.
  - intros attr He Hr Hnone. unfold not.
    apply (dict_set_other (fun _ => False)); [exact Hr |].
    apply (dict_set_other (fun _ => False)); [exact He |].
    exact (dict_get_None validated_data attr Hnone).
Qed.

Lemma find_replaced (k : Z) (u' : User) (us : list User) :
  find (fun r => user_pk r =? k)
       (map (fun r => if user_pk r =? user_pk u' then u' else r) us)
  = if user_pk u' =? k
    then option_map (fun _ => u') (find (fun r => user_pk r =? k) us)
    else find (fun r => user_pk r =? k) us.
Proof.
  induction us as [| r us IH]; simpl.
  - destruct (user_pk u' =? k); reflexivity.
  - destruct (Z.eqb_spec (user_pk r) (user_pk u')) as [Hr | Hr].
    + rewrite Hr. destruct (Z.eqb_spec (user_pk u') k); [reflexivity |].
      rewrite IH. destruct (Z.eqb_spec (user_pk u') k); [contradiction |].
      reflexivity.
    + destruct (Z.eqb_spec (user_pk r) k) as [Hk | Hk].
      * destruct (Z.eqb_spec (user_pk u') k); [congruence | reflexivity].
      * exact IH.
Qed.

Lemma find_appended (k : Z) (u' : User) (us : list User) :
  find (fun r => user_pk r =? k) (us ++ [u'])
  = match find (fun r => user_pk r =? k) us with
    | Some r => Some r
    | None => if user_pk u' =? k then Some u' else None
    end.
Proof.
  induction us as [| r us IH]; simpl.
  - reflexivity.
  - destruct (user_pk r =? k); [reflexivity | exact IH].
Qed.

Lemma find_by_pk_mem (k : Z) (us : list User) (r : User) :
  find (fun x => user_pk x =? k) us = Some r ->
  mem_pk k (map user_pk us) = true.
Proof.
  intro Hf. apply find_some in Hf. destruct Hf as [Hin Hk].
  apply Z.eqb_eq in Hk. apply mem_pk_In. rewrite <- Hk.
  apply in_map. exact Hin.
Qed.

(** What [save] does to the lookups by primary key: the saved row is the one
    found under its key, unless [save] raised and wrote nothing; the other
    keys find what they found before. *)
Lemma User_save_lookup (u' : User) (s : Store) :
  (forall r, User_by_pk (user_pk u') s = Some r ->
     snd (User_save u' s) = s
     \/ User_by_pk (user_pk u') (snd (User_save u' s)) = Some u')
  /\ (forall k, k <> user_pk u' ->
        User_by_pk k (snd (User_save u' s)) = User_by_pk k s).
Proof.
  unfold User_save, User_by_pk.
  destruct (violates_unique u' (users s)); [split; [left |]; reflexivity |].
  split.
  - intros r Hr. right.
    rewrite (find_by_pk_mem (user_pk u') (users s) r Hr). simpl.
    rewrite find_replaced, Hr, Z.eqb_refl. reflexivity.
  - intros k Hk.
    destruct (mem_pk (user_pk u') (map user_pk (users s))); simpl.
    + rewrite find_replaced.
      destruct (Z.eqb_spec (user_pk u') k); [congruence | reflexivity].
    + rewrite find_appended.
      destruct (find (fun r => user_pk r =? k) (users s)); [reflexivity |].
      destruct (Z.eqb_spec (user_pk u') k); [congruence | reflexivity].
Qed.

(** C8: whatever the payload and whatever the serializer lets through, the
    [me] action leaves the stored email and role of the authenticated user
    as they were; of the other columns only those the serializer put into
    [validated_data] can change; the row keeps its primary key and no other
    user's row is touched. *)
Theorem me_keeps_email_and_role :
  forall (UserSerializer : UserSerializer_partial)
         (to_representation : User -> Dict)
         (request : Request) (s : Store) (u : User),
    user request = LoggedIn u ->
    User_by_pk (user_pk u) s = Some u ->
    (exists u' : User,
        User_by_pk (user_pk u)
          (snd (UserViewSet_me UserSerializer to_representation request s))
        = Some u'
        /\ email u' = email u /\ role u' = role u
        /\ forall attr : string,
             (forall validated_data : Dict,
                 UserSerializer s u (data request) = Ok validated_data ->
                 dict_get validated_data attr = None) ->
             getattr u' attr = getattr u attr)
    /\ (forall k, k <> user_pk u ->
          User_by_pk k
            (snd (UserViewSet_me UserSerializer to_representation request s))
          = User_by_pk k s).
Proof.
  intros ser repr request s u Hu Hrow.
  assert ((exists u', User_by_pk (user_pk u) s = Some u'
                      /\ email u' = email u /\ role u' = role u
                      /\ forall attr : string,
                           (forall vd, ser s u (data request) = Ok vd ->
                                       dict_get vd attr = None) ->
                           getattr u' attr = getattr u attr)
          /\ (forall k, k <> user_pk u -> User_by_pk k s = User_by_pk k s))
    as Hsame.
  { split; [exists u; repeat split; exact Hrow | reflexivity]. }
  unfold UserViewSet_me, bindV, lift, raise, ret, run_serializer,
    check_permissions, IsAuthenticated, has_permission, bind.
  rewrite Hu. simpl is_authenticated. cbv beta iota.
  destruct (negb (py_in (method request) ["GET"; "HEAD"; "PATCH"]));
    [exact Hsame |].
  destruct (String.eqb (method request) "PATCH"); [| exact Hsame].
  destruct (ser s u (data request)) as [validated_data | e] eqn:Hvalid;
    [| exact Hsame].
  unfold Serializer_save, ModelSerializer_update, bindV, ret.
  destruct (merged_items validated_data (email u) (role u))
    as [Hme [Hmr Hmo]].
  set (merged := dict_merge validated_data
                   [("email", VStr (email u)); ("role", VStr (role u))])
    in *.
  set (saved := setattr_items u merged).
  assert (user_pk saved = user_pk u) as Hpk by apply update_pk.
  assert (email saved = email u) as Hemail
    by (apply update_email; [exact Hme | reflexivity]).
  assert (role saved = role u) as Hrole
    by (apply update_role; [exact Hmr | reflexivity]).
  assert (forall attr : string,
             (forall vd, Ok validated_data = Ok vd -> dict_get vd attr = None) ->
             getattr saved attr = getattr u attr) as Hframe.
  { intros attr Hnone. specialize (Hnone validated_data eq_refl).
    destruct (String.eqb_spec attr "email") as [He | He];
      [subst attr; unfold getattr; simpl; rewrite Hemail; reflexivity |].
    destruct (String.eqb_spec attr "role") as [Hr | Hr];
      [subst attr; unfold getattr; simpl; rewrite Hrole; reflexivity |].
    apply update_other. exact (Hmo attr He Hr Hnone). }
  destruct (User_save_lookup saved s) as [Hown Hothers].
  rewrite Hpk in Hown, Hothers.
  assert ((exists u', User_by_pk (user_pk u) (snd (User_save saved s)) = Some u'
                      /\ email u' = email u /\ role u' = role u
                      /\ forall attr : string,
                           (forall vd, Ok validated_data = Ok vd ->
                                       dict_get vd attr = None) ->
                           getattr u' attr = getattr u attr)
          /\ (forall k, k <> user_pk u ->
                User_by_pk k (snd (User_save saved s)) = User_by_pk k s))
    as Hsaved.
  { split; [| exact Hothers].
    destruct (Hown u Hrow) as [Hs | Hs].
    - rewrite Hs. exists u. repeat split. exact Hrow.
    - exists saved. repeat split; assumption. }
  destruct (User_save saved s) as [[[] | e] s']; exact Hsaved.
Qed.

Lemma me_keeps_email_and_role_witness :
  exists u' : User,
    User_by_pk 1
      (snd (UserViewSet_me Sample.permissive (fun _ => []) Sample.patch_me
                           Sample.store))
    = Some u'
    /\ email u' = "alice@example.com" /\ role u' = "user"
    /\ forall attr : string,
         (forall validated_data : Dict,
             Sample.permissive Sample.store Sample.alice
                               (data Sample.patch_me) = Ok validated_data ->
             dict_get validated_data attr = None) ->
         getattr u' attr = getattr Sample.alice attr.
Proof.
  apply (proj1 (me_keeps_email_and_role Sample.permissive (fun _ => [])
                  Sample.patch_me Sample.store Sample.alice
                  eq_refl eq_refl)).
Defined.

(** ** Confirmation codes *)

Lemma next_pk_fresh (pks : list Z) (k : Z) : In k pks -> k < next_pk pks.
Proof.
  unfold next_pk. induction pks as [| p pks IH]; cbn [fold_right In];
    [contradiction |].
  intros [Hk | Hk]; [subst p; lia |].
  specialize (IH Hk). lia.
Qed.

(** C3, at the input where the code departs from it: alice is pending with
    the code issued to her, and asks for a code again.  The fresh code is
    one of the lookup keys of [get_or_create], so the lookup misses, the
    INSERT runs into her unique email, and the view ends in the integrity
    error: nothing is stored, nothing is mailed, the stored code is still
    the old one, and the exchange (with the serializer as the
    specification describes it) still accepts the old code and refuses the
    one just generated. *)
Theorem reissue_raises_and_keeps_the_old_code :
  ObtainingConfirmationCodeView_post ObtainingConfirmationCodeSerializer
    Sample.env Sample.code_request Sample.store
  = (Raise IntegrityError, Sample.store)
  /\ outbox (snd (ObtainingConfirmationCodeView_post
                    ObtainingConfirmationCodeSerializer Sample.env
                    Sample.code_request Sample.store)) = []
  /\ stored_code "alice@example.com"
       (snd (ObtainingConfirmationCodeView_post
               ObtainingConfirmationCodeSerializer Sample.env
               Sample.code_request Sample.store))
     = Some "old-code"
  /\ exchange_accepts "alice@example.com" "old-code"
       (snd (ObtainingConfirmationCodeView_post
               ObtainingConfirmationCodeSerializer Sample.env
               Sample.code_request Sample.store)) = true
  /\ exchange_accepts "alice@example.com" (uuid4 Sample.env)
       (snd (ObtainingConfirmationCodeView_post
               ObtainingConfirmationCodeSerializer Sample.env
               Sample.code_request Sample.store)) = false
  /\ ~ reissue_overwrites Sample.env Sample.code_request
         "alice@example.com" "old-code" Sample.store.
Proof.
  repeat (split; [reflexivity |]).
  unfold reissue_overwrites. intros [Hstored _].
  vm_compute in Hstored. discriminate Hstored.
Qed.

(** ** The token exchange *)

Section UniqueKeys.

Variable s : Store.
Hypothesis Hconsistent : consistent s = true.

Lemma consistent_email (x y : User) :
  In x (users s) -> In y (users s) -> email x = email y -> x = y.
Proof.
  unfold consistent in Hconsistent.
  apply andb_true_iff in Hconsistent. destruct Hconsistent as [H12 _].
  apply andb_true_iff in H12. destruct H12 as [_ He].
  exact (distinct_inj email String.eqb (users s) String.eqb_eq He x y).
Qed.

Lemma consistent_username (x y : User) :
  In x (users s) -> In y (users s) -> username x = username y -> x = y.
Proof.
  unfold consistent in Hconsistent.
  apply andb_true_iff in Hconsistent. destruct Hconsistent as [_ Hn].
  exact (distinct_inj username String.eqb (users s) String.eqb_eq Hn x y).
Qed.

Lemma stored_row_saves (u : User) :
  In u (users s) -> violates_unique u (users s) = false.
Proof.
  intro Hin. destruct (violates_unique u (users s)) eqn:Hv; [| reflexivity].
  exfalso. unfold violates_unique in Hv. apply existsb_exists in Hv.
  destruct Hv as [r [Hr Hclash]].
  apply andb_true_iff in Hclash. destruct Hclash as [Hpk Hkey].
  apply negb_true_iff, Z.eqb_neq in Hpk. apply Hpk.
  apply orb_true_iff in Hkey. destruct Hkey as [Hn | He].
  - apply String.eqb_eq in Hn.
    rewrite (consistent_username r u Hr Hin Hn). reflexivity.
  - apply String.eqb_eq in He.
    rewrite (consistent_email r u Hr Hin He). reflexivity.
Qed.

End UniqueKeys.

Lemma filter_none {A : Type} (p : A -> bool) (l : list A) :
  (forall x, In x l -> p x = false) -> filter p l = [].
Proof.
  induction l as [| a l IH]; simpl; [reflexivity |].
  intro Hall. rewrite (Hall a (or_introl eq_refl)).
  apply IH. intros x Hx. apply Hall. right. exact Hx.
Qed.

Lemma filter_email_single (us : list User) (u : User) :
  distinct String.eqb (map email us) = true ->
  In u us ->
  filter (fun r => String.eqb (email r) (email u)) us = [u].
Proof.
  induction us as [| r us IH]; simpl; [contradiction |].
  intro Hd. apply andb_true_iff in Hd. destruct Hd as [Hfresh Hd].
  apply negb_true_iff in Hfresh.
  pose proof (fresh_key email String.eqb r us String.eqb_eq Hfresh) as Hne.
  intros [Hu | Hu].
  - subst r. rewrite String.eqb_refl. f_equal. apply filter_none.
    intros x Hx. apply String.eqb_neq. intro He. exact (Hne x Hx (eq_sym He)).
  - destruct (String.eqb_spec (email r) (email u)) as [He | He].
    + exfalso. exact (Hne u Hu He).
    + exact (IH Hd Hu).
Qed.

(** C4, as the code has it: a presentation whose code is the one stored for
    the email is answered with a response that carries one token, the
    access token bound to that user; a presentation whose code is not the
    stored one is rejected, no token is issued and the store is left as it
    was. *)
Theorem exchange_checks_code :
  forall (s : Store) (request : Request) (e c : string),
    consistent s = true ->
    dict_get (data request) "email" = Some (VStr e) ->
    dict_get (data request) "confirmation_code" = Some (VStr c) ->
    (forall u : User,
        In u (users s) -> email u = e -> confirmation_code u = c ->
        fst (TokenView_post TokenSerializer request s)
        = Ok (mkResponse [("token", VJwt (mkToken access (user_pk u)))] 200))
    /\ ((forall u : User,
            In u (users s) -> email u = e -> confirmation_code u <> c) ->
        exists err : Exception,
          TokenView_post TokenSerializer request s = (Raise err, s)).
Proof.
  intros s request e c Hcons He Hc. split.
  - intros u Hin Hue Huc.
    unfold TokenView_post, bindV, run_serializer, TokenSerializer.
    rewrite He, Hc.
    assert (existsb (fun r => String.eqb (email r) e
                              && String.eqb (confirmation_code r) c)
                    (users s) = true) as Hex.
    { apply existsb_exists. exists u. split; [exact Hin |].
      rewrite Hue, Huc, !String.eqb_refl. reflexivity. }
    rewrite Hex. unfold get_User_or_404, User_objects_get. subst e.
    rewrite (filter_email_single (users s) u); [| | exact Hin].
    + unfold User_save. rewrite (stored_row_saves s Hcons u Hin).
      destruct (mem_pk (user_pk u) (map user_pk (users s))); reflexivity.
    + unfold consistent in Hcons. apply andb_true_iff in Hcons.
      destruct Hcons as [H12 _]. apply andb_true_iff in H12. tauto.
  - intro Hmis.
    unfold TokenView_post, bindV, run_serializer, TokenSerializer.
    rewrite He, Hc.
    assert (existsb (fun r => String.eqb (email r) e
                              && String.eqb (confirmation_code r) c)
                    (users s) = false) as Hex.
    { destruct (existsb _ (users s)) eqn:Hx; [| reflexivity].
      exfalso. apply existsb_exists in Hx. destruct Hx as [u [Hin Hm]].
      apply andb_true_iff in Hm. destruct Hm as [Hue Huc].
      apply String.eqb_eq in Hue. apply String.eqb_eq in Huc.
      exact (Hmis u Hin Hue Huc). }
    rewrite Hex. eexists. reflexivity.
Qed.

Lemma exchange_checks_code_witness :
  fst (TokenView_post TokenSerializer
         (presentation "alice@example.com" "old-code") Sample.store)
  = Ok (mkResponse [("token", VJwt (mkToken access 1))] 200)
  /\ exists err : Exception,
       TokenView_post TokenSerializer
         (presentation "alice@example.com" "new-code") Sample.store
       = (Raise err, Sample.store).
Proof.
  split.
  - apply (proj1 (exchange_checks_code Sample.store
                    (presentation "alice@example.com" "old-code")
                    "alice@example.com" "old-code" eq_refl eq_refl eq_refl)
                 Sample.alice);
      [left; reflexivity | reflexivity | reflexivity].
  - apply (proj2 (exchange_checks_code Sample.store
                    (presentation "alice@example.com" "new-code")
                    "alice@example.com" "new-code" eq_refl eq_refl eq_refl)).
    intros u [Hu | [Hu | [Hu | [Hu | []]]]] He; subst u;
      simpl in He |- *; discriminate.
Defined.

(** C4, as the specification words it, fails: alice presents the stored
    code, the answer carries the access token alone, and her row, still
    inactive, is what it was. *)
Lemma exchange_neither_activates_nor_pairs :
  TokenView_post TokenSerializer
    (presentation "alice@example.com" "old-code") Sample.store
  = (Ok (mkResponse [("token", VJwt (mkToken access 1))] 200), Sample.store)
  /\ User_by_pk 1 Sample.store = Some Sample.alice
  /\ is_active Sample.alice = false
  /\ ~ is_token_pair [("token", VJwt (mkToken access 1))] 1
  /\ ~ exchange_activates_and_pairs "alice@example.com" "old-code"
         Sample.store.
Proof.
  repeat apply conj; try reflexivity.
  - intros [k1 [k2 [Hrefresh _]]]. cbn [dict_get] in Hrefresh.
    destruct (String.eqb "token" k1); discriminate Hrefresh.
  - intro Hclaim.
    destruct (Hclaim Sample.alice (or_introl eq_refl) eq_refl eq_refl)
      as [_ [u' [Hrow Hactive]]].
    vm_compute in Hrow. injection Hrow as Hu'. subst u'.
    discriminate Hactive.
Qed.

(** * Further properties of the code *)

(** ** Policies as the view sets compose them *)

Lemma authorize_review_cases (request : Request) (obj : Obj) :
  authorize_object ReviewViewSet_permission_classes request obj
  = if py_in (method request) SAFE_METHODS then Ok tt
    else match user request with
         | AnonymousUser => Raise NotAuthenticated
         | LoggedIn u =>
             if (author_id obj =? user_pk u) || admin u || moderator u
             then Ok tt
             else Raise PermissionDenied
         end.
Proof.
  unfold authorize_object, ReviewViewSet_permission_classes,
    check_permissions, check_object_permissions, IsAuthenticatedOrReadOnly,
    IsAuthorOrStaffOrReadOnly, has_permission, has_object_permission,
    default_has_permission, default_has_object_permission,
    IsAuthorOrStaffOrReadOnly_has_object_permission, permission_denied,
    author_eq, subject_admin, subject_moderator, py_or, bind, truthy.
  destruct (py_in (method request) SAFE_METHODS); [reflexivity |].
  destruct (user request) as [| u]; [reflexivity |]. simpl.
  destruct (author_id obj =? user_pk u); [reflexivity |].
  destruct (admin u); [reflexivity |].
  destruct (moderator u); reflexivity.
Qed.

(** X1: the review and comment view sets let a request on an instance
    through exactly when its method is safe, or its subject is
    authenticated and is the author or has the admin or the moderator role;
    every refusal is an authentication or permission failure, and the
    attribute error of the object policy never gets out. *)
Theorem review_authorization_table :
  forall (request : Request) (obj : Obj),
    (authorize_object ReviewViewSet_permission_classes request obj = Ok tt
     <-> py_in (method request) SAFE_METHODS = true
         \/ exists u : User,
              user request = LoggedIn u
              /\ (author_id obj = user_pk u
                  \/ role u = UserRoles.ADMIN
                  \/ role u = UserRoles.MODERATOR))
    /\ (authorize_object ReviewViewSet_permission_classes request obj = Ok tt
        \/ authorize_object ReviewViewSet_permission_classes request obj
           = Raise NotAuthenticated
        \/ authorize_object ReviewViewSet_permission_classes request obj
           = Raise PermissionDenied)
    /\ authorize_object CommentViewSet_permission_classes request obj
       = authorize_object ReviewViewSet_permission_classes request obj.
Proof.
  intros request obj.
  split; [| split; [| reflexivity]]; rewrite authorize_review_cases.
  - destruct (py_in (method request) SAFE_METHODS).
    + split; [intros _; left; reflexivity | reflexivity].
    + destruct (user request) as [| u].
      * split; [discriminate |].
        intros [H | [u [H _]]]; discriminate H.
      * destruct ((author_id obj =? user_pk u) || admin u || moderator u)
          eqn:Hb.
        -- split; [intros _ | reflexivity]. right. exists u.
           split; [reflexivity |].
           apply orb_true_iff in Hb. destruct Hb as [Hb | Hb].
           ++ apply orb_true_iff in Hb. destruct Hb as [Hb | Hb].
              ** left. apply Z.eqb_eq. exact Hb.
              ** right. left. apply admin_iff. exact Hb.
           ++ right. right. apply moderator_iff. exact Hb.
        -- split; [discriminate |].
           intros [H | [u' [Hu Hwho]]]; [discriminate H |].
           injection Hu as Hu. subst u'. exfalso.
           apply orb_false_iff in Hb. destruct Hb as [Hb Hm].
           apply orb_false_iff in Hb. destruct Hb as [Ha Hr].
           destruct Hwho as [Hw | [Hw | Hw]].
           ++ apply Z.eqb_eq in Hw. congruence.
           ++ apply admin_iff in Hw. congruence.
           ++ apply moderator_iff in Hw. congruence.
  - destruct (py_in (method request) SAFE_METHODS); [left; reflexivity |].
    destruct (user request) as [| u]; [right; left; reflexivity |].
    destruct ((author_id obj =? user_pk u) || admin u || moderator u);
      [left | right; right]; reflexivity.
Qed.

(** X2: taken alone, the object policy raises exactly on a mutating request
    of an anonymous subject, where it reads the [admin] property that
    [AnonymousUser] lacks; on every other request it returns a boolean. *)
Theorem object_policy_raises_iff_anonymous_mutation :
  forall (request : Request) (obj : Obj),
    ((exists e, IsAuthorOrStaffOrReadOnly_has_object_permission request obj
                = Raise e)
     <-> user request = AnonymousUser
         /\ py_in (method request) SAFE_METHODS = false)
    /\ (IsAuthorOrStaffOrReadOnly_has_object_permission request obj
        = Raise (AttributeError "admin")
        \/ exists b : bool,
             IsAuthorOrStaffOrReadOnly_has_object_permission request obj
             = Ok (Some b)).
Proof.
  intros request obj.
  unfold IsAuthorOrStaffOrReadOnly_has_object_permission, author_eq,
    subject_admin, subject_moderator, py_or, bind.
  destruct (py_in (method request) SAFE_METHODS).
  - split; [| right; exists true; reflexivity].
    split; [intros [e He]; discriminate He | intros [_ H]; discriminate H].
  - destruct (user request) as [| u].
    + split; [| left; reflexivity].
      split; [intros _; split; reflexivity | intros _; eexists; reflexivity].
    + split.
      * split; [| intros [H _]; discriminate H].
        intros [e He]. exfalso.
        destruct (author_id obj =? user_pk u); [discriminate He |].
        destruct (admin u); discriminate He.
      * right. destruct (author_id obj =? user_pk u);
          [exists true; reflexivity |].
        destruct (admin u); [exists true; reflexivity |].
        exists (moderator u). reflexivity.
Qed.

Lemma check_IsAdmin_cases (request : Request) :
  check_permissions [IsAdmin] request
  = match user request with
    | AnonymousUser => Raise NotAuthenticated
    | LoggedIn u =>
        if is_staff u || admin u then Ok tt else Raise PermissionDenied
    end.
Proof.
  unfold check_permissions, IsAdmin, has_permission, IsAdmin_has_permission,
    permission_denied, subject_is_staff, subject_admin, py_or, bind, truthy.
  destruct (user request) as [| u]; [reflexivity |]. simpl.
  destruct (is_staff u); [reflexivity |]. destruct (admin u); reflexivity.
Qed.

Lemma check_IsAdminOrReadOnly_cases (request : Request) :
  check_permissions [IsAdminOrReadOnly] request
  = if py_in (method request) SAFE_METHODS then Ok tt
    else check_permissions [IsAdmin] request.
Proof.
  rewrite check_IsAdmin_cases.
  unfold check_permissions, IsAdminOrReadOnly, has_permission,
    IsAdminOrReadOnly_has_permission, permission_denied, subject_is_staff,
    subject_admin, py_or, bind, truthy.
  destruct (py_in (method request) SAFE_METHODS); [reflexivity |].
  destruct (user request) as [| u]; [reflexivity |]. simpl.
  destruct (is_staff u); [reflexivity |]. destruct (admin u); reflexivity.
Qed.

(** X3: the user management gate opens only for an authenticated subject
    with the staff flag or the admin role, never for an anonymous one and
    never for the moderator role alone; the catalogue gate opens on every
    safe method and otherwise exactly when the user management gate does. *)
Theorem admin_gates :
  forall request : Request,
    (check_permissions [IsAdmin] request = Ok tt
     <-> exists u : User,
           user request = LoggedIn u
           /\ (is_staff u = true \/ role u = UserRoles.ADMIN))
    /\ (check_permissions [IsAdminOrReadOnly] request = Ok tt
        <-> py_in (method request) SAFE_METHODS = true
            \/ check_permissions [IsAdmin] request = Ok tt)
    /\ (forall u : User,
          user request = LoggedIn u -> is_staff u = false ->
          role u = UserRoles.MODERATOR ->
          check_permissions [IsAdmin] request = Raise PermissionDenied).
Proof.
  intro request. rewrite check_IsAdminOrReadOnly_cases, check_IsAdmin_cases.
  split; [| split].
  - destruct (user request) as [| u].
    + split; [discriminate | intros [u [H _]]; discriminate H].
    + destruct (is_staff u) eqn:Hs; simpl.
      * split; [intros _; exists u; split; [reflexivity | left; exact Hs]
               | reflexivity].
      * destruct (admin u) eqn:Ha.
        -- split; [intros _ | reflexivity]. exists u.
           split; [reflexivity | right; apply admin_iff; exact Ha].
        -- split; [discriminate |]. intros [u' [Hu [H | H]]];
             injection Hu as Hu; subst u'; [congruence |].
           apply admin_iff in H. congruence.
  - destruct (py_in (method request) SAFE_METHODS).
    + split; [intros _; left; reflexivity | reflexivity].
    + split; [intro H; right; exact H | intros [H | H]; [discriminate H | exact H]].
  - intros u Hu Hs Hr. rewrite Hu, Hs. simpl.
    unfold admin. rewrite Hr. reflexivity.
Qed.

Lemma admin_gates_witness :
  check_permissions [IsAdmin] (Sample.delete_by Sample.maria)
  = Raise PermissionDenied.
Proof.
  apply (proj2 (proj2 (admin_gates (Sample.delete_by Sample.maria)))
               Sample.maria);
    reflexivity.
Defined.

(** ** Score validation *)

(** X4: the validators declared on [Review.score] accept exactly the scores
    from 1 to 10; a smaller score is refused with the message of the minimum
    validator and a larger one with the message of the maximum validator. *)
Theorem score_validators_range :
  forall v : Z,
    (run_validators Review_score_validators v = Ok tt <-> 1 <= v <= 10)
    /\ (v < 1 ->
        run_validators Review_score_validators v
        = Raise (ValidationError "Не меньше 1"
                   [("limit_value", 1); ("show_value", v); ("value", v)]))
    /\ (10 < v ->
        run_validators Review_score_validators v
        = Raise (ValidationError "Не больше 10"
                   [("limit_value", 10); ("show_value", v); ("value", v)])).
Proof.
  intro v.
  unfold Review_score_validators, run_validators, MinValueValidator,
    MaxValueValidator, bind.
  destruct (Z.ltb_spec v 1); destruct (Z.gtb_spec v 10);
    repeat apply conj; try (intro Hv; try discriminate Hv; try reflexivity; lia);
    try (split; intro Hv; try discriminate Hv; try reflexivity; lia).
Qed.

Lemma score_validators_range_witness :
  run_validators Review_score_validators 11
  = Raise (ValidationError "Не больше 10"
             [("limit_value", 10); ("show_value", 11); ("value", 11)]).
Proof.
  apply (proj2 (proj2 (score_validators_range 11))). lia.
Defined.

(** ** The title collection *)

Lemma Sum_bounds (lo hi : Z) (vs : list Z) :
  (forall v, In v vs -> lo <= v <= hi) ->
  lo * Z.of_nat (List.length vs) <= Sum vs <= hi * Z.of_nat (List.length vs).
Proof.
  unfold Sum. induction vs as [| v vs IH]; intro Hall.
  - simpl. lia.
  - cbn [fold_right List.length]. rewrite Nat2Z.inj_succ.
    assert (lo <= v <= hi) as Hv by (apply Hall; left; reflexivity).
    assert (forall x, In x vs -> lo <= x <= hi) as Hrest
      by (intros x Hx; apply Hall; right; exact Hx).
    specialize (IH Hrest). lia.
Qed.

Lemma Avg_bounds (lo hi : Z) (column : list (option Z)) (q : Q) :
  (forall v, In v (non_null column) -> lo <= v <= hi) ->
  Avg column = Some q ->
  (inject_Z lo <= q <= inject_Z hi)%Q.
Proof.
  unfold Avg. intros Hall Havg.
  destruct (non_null column) as [| v vs] eqn:Hnn; [discriminate Havg |].
  injection Havg as Hq. subst q.
  pose proof (Sum_bounds lo hi (v :: vs) Hall) as Hb.
  cbn [List.length] in Hb. rewrite Nat2Z.inj_succ in Hb.
  unfold Qle, inject_Z. cbn [Qnum Qden].
  rewrite Zpos_P_of_succ_nat.
  change (Sum (v :: vs)) with (v + Sum vs) in Hb. lia.
Qed.

Lemma non_null_joined (t : Title) (rs : list Review) (v : Z) :
  In v (non_null (reviews__score t rs)) ->
  exists r, In r rs /\ review_title r = title_pk t /\ score r = v.
Proof.
  unfold reviews__score.
  destruct (filter (fun r => review_title r =? title_pk t) rs)
    as [| r0 joined] eqn:Hf; [contradiction |].
  rewrite non_null_scores. intro Hin. apply in_map_iff in Hin.
  destruct Hin as [r [Hs Hr]]. rewrite <- Hf in Hr.
  apply filter_In in Hr. destruct Hr as [Hr Ht]. apply Z.eqb_eq in Ht.
  exists r. repeat split; assumption.
Qed.

(** X5: a rating read from the title collection lies between any two
    bounds that hold for the stored scores of the title's reviews; with the
    scores the validators admit it is a number from 1 to 10. *)
Theorem rating_within_score_bounds :
  forall (s : Store) (lo hi : Z) (a : AnnotatedTitle) (q : Q),
    (forall r, In r (reviews s) -> review_title r = title_pk (title a) ->
               lo <= score r <= hi) ->
    In a (TitleViewSet_queryset s) ->
    rating a = Some q ->
    (inject_Z lo <= q <= inject_Z hi)%Q.
Proof.
  intros s lo hi a q Hall Hin Hq.
  unfold TitleViewSet_queryset in Hin.
  apply (proj1 (order_by_name_In _ _)) in Hin. apply in_map_iff in Hin.
  destruct Hin as [t [Ha _]]. subst a. simpl in Hq, Hall.
  apply (Avg_bounds lo hi (reviews__score t (reviews s)) q); [| exact Hq].
  intros v Hv. apply non_null_joined in Hv.
  destruct Hv as [r [Hr [Ht Hs]]]. subst v. apply Hall; assumption.
Qed.

Lemma rating_within_score_bounds_witness :
  (inject_Z 1 <= (18 # 2) <= inject_Z 10)%Q.
Proof.
  apply (rating_within_score_bounds Sample.store 1 10
           (mkAnnotated Sample.film (Some (18 # 2))) (18 # 2)).
  - intros r [Hr | [Hr | []]] _; subst r; simpl; lia.
  - right. left. reflexivity.
  - reflexivity.
Defined.

Lemma insert_by_name_perm (a : AnnotatedTitle) (l : list AnnotatedTitle) :
  Permutation (insert_by_name a l) (a :: l).
Proof.
  induction l as [| b l IH]; simpl; [apply Permutation_refl |].
  destruct (String.leb (title_name (title a)) (title_name (title b)));
    [apply Permutation_refl |].
  apply perm_trans with (b :: a :: l);
    [apply perm_skip; exact IH | apply perm_swap].
Qed.

Lemma insert_by_name_sorted (a : AnnotatedTitle) (l : list AnnotatedTitle) :
  Sorted by_name l -> Sorted by_name (insert_by_name a l).
Proof.
  induction l as [| b l IH]; intro Hs; simpl.
  - constructor; constructor.
  - destruct (String.leb (title_name (title a)) (title_name (title b)))
      eqn:Hab.
    + constructor; [exact Hs | constructor; exact Hab].
    + inversion Hs as [| x y Hl Hhd]; subst.
      constructor; [apply IH; exact Hl |].
      assert (by_name b a) as Hba.
      { unfold by_name.
        destruct (String.leb_total (title_name (title a))
                                   (title_name (title b))) as [H | H];
          [congruence | exact H]. }
      destruct l as [| c l]; simpl.
      * constructor. exact Hba.
      * destruct (String.leb (title_name (title a)) (title_name (title c))).
        -- constructor. exact Hba.
        -- constructor. inversion Hhd; assumption.
Qed.

(** X6: the title collection is in ascending order of name and holds the
    stored titles, each as often as it is stored. *)
Theorem title_collection_sorted_by_name :
  forall s : Store,
    Sorted by_name (TitleViewSet_queryset s)
    /\ Permutation (map title (TitleViewSet_queryset s)) (titles s).
Proof.
  intro s. unfold TitleViewSet_queryset, order_by_name.
  induction (titles s) as [| t ts [IHs IHp]]; simpl.
  - split; constructor.
  - split; [apply insert_by_name_sorted; exact IHs |].
    apply perm_trans
      with (map title
              (mkAnnotated t (Avg (reviews__score t (reviews s)))
               :: fold_right insert_by_name []
                    (map (fun t0 => mkAnnotated t0
                                      (Avg (reviews__score t0 (reviews s))))
                         ts))).
    + apply Permutation_map. apply insert_by_name_perm.
    + simpl. apply perm_skip. exact IHp.
Qed.

(** ** Requesting a confirmation code *)

Lemma existsb_false {A : Type} (p : A -> bool) (l : list A) :
  (forall x, In x l -> p x = false) -> existsb p l = false.
Proof.
  intro Hall. destruct (existsb p l) eqn:Hex; [| reflexivity].
  apply existsb_exists in Hex. destruct Hex as [x [Hx Hp]].
  rewrite (Hall x Hx) in Hp. discriminate Hp.
Qed.

(** The lookup misses and the INSERT goes through when nobody holds the
    email or the user name. *)
Lemma get_or_create_fresh (e n c : string) (a : bool) (s : Store) :
  (forall r, In r (users s) -> email r <> e /\ username r <> n) ->
  User_objects_get_or_create e n c a s
  = (Ok (mkUser (next_pk (map user_pk (users s))) n e "" "" ""
                UserRoles.USER c a false, true),
     with_users
       (users s ++ [mkUser (next_pk (map user_pk (users s))) n e "" "" ""
                           UserRoles.USER c a false])%list s).
Proof.
  intro Hfree. unfold User_objects_get_or_create, User_objects_get.
  rewrite filter_none.
  - unfold User_objects_create, violates_unique.
    rewrite existsb_false; [reflexivity |].
    intros r Hr. destruct (Hfree r Hr) as [He Hn]. simpl.
    apply String.eqb_neq in He. apply String.eqb_neq in Hn.
    rewrite He, Hn. apply andb_false_r.
  - intros r Hr. destruct (Hfree r Hr) as [He _].
    apply String.eqb_neq in He. rewrite He. reflexivity.
Qed.

(** X7: the first request for an email that no stored user holds as email
    or as user name adds one user, inactive, with the plain role, the email
    as user name and the generated code as confirmation code, mails exactly
    that code to exactly that address, and answers 200. *)
Theorem first_request_registers :
  forall (serializer : EmailSerializer) (env : Env) (request : Request)
         (s : Store) (e : string),
    serializer s (data request) = Ok e ->
    (forall r, In r (users s) -> email r <> e /\ username r <> e) ->
    smtp_up env = true ->
    exists (new : User) (resp : Response),
      ObtainingConfirmationCodeView_post serializer env request s
      = (Ok resp,
         with_outbox
           (outbox s ++ [mkMail "Confirmation Code"
                                ("confirmation_code: " ++ confirmation_code new)
                                (YAMDB_EMAIL env) [email new]])%list
           (with_users (users s ++ [new])%list s))
      /\ status resp = 200
      /\ email new = e /\ username new = e
      /\ confirmation_code new = uuid4 env
      /\ is_active new = false /\ is_staff new = false
      /\ role new = UserRoles.USER
      /\ forall r, In r (users s) -> user_pk r < user_pk new.
Proof.
  intros ser env request s e Hvalid Hfree Hup.
  exists (mkUser (next_pk (map user_pk (users s))) e e "" "" ""
                 UserRoles.USER (uuid4 env) false false).
  eexists.
  unfold ObtainingConfirmationCodeView_post, bindV, run_serializer.
  rewrite Hvalid, (get_or_create_fresh e e (uuid4 env) false s Hfree).
  unfold send_mail. rewrite Hup. cbv beta iota zeta.
  split; [reflexivity |]. simpl.
  repeat split.
  intros r Hr. apply next_pk_fresh, in_map, Hr.
Qed.

Lemma first_request_registers_witness :
  exists (new : User) (resp : Response),
    ObtainingConfirmationCodeView_post ObtainingConfirmationCodeSerializer
      Sample.env Scenario.fresh_request Sample.store
    = (Ok resp,
       with_outbox
         (outbox Sample.store
          ++ [mkMail "Confirmation Code"
                     ("confirmation_code: " ++ confirmation_code new)
                     (YAMDB_EMAIL Sample.env) [email new]])%list
         (with_users (users Sample.store ++ [new])%list Sample.store))
    /\ status resp = 200
    /\ email new = "dana@example.com" /\ username new = "dana@example.com"
    /\ confirmation_code new = uuid4 Sample.env
    /\ is_active new = false /\ is_staff new = false
    /\ role new = UserRoles.USER
    /\ forall r, In r (users Sample.store) -> user_pk r < user_pk new.
Proof.
  apply (first_request_registers ObtainingConfirmationCodeSerializer
           Sample.env Scenario.fresh_request Sample.store
           "dana@example.com" eq_refl).
  - intros r [Hr | [Hr | [Hr | [Hr | []]]]]; subst r; simpl;
      split; discriminate.
  - reflexivity.
Defined.

Lemma find_missing {A : Type} (p : A -> bool) (l l' : list A) :
  (forall x, In x l -> p x = false) -> find p (l ++ l') = find p l'.
Proof.
  induction l as [| a l IH]; intro Hall; simpl; [reflexivity |].
  rewrite (Hall a (or_introl eq_refl)).
  apply IH. intros x Hx. apply Hall. right. exact Hx.
Qed.

(** X8: when the mail transport fails on such a first request the view
    raises the transport's error, and the user row it has just written
    stays in the store; nothing is put in the outbox. *)
Theorem failed_delivery_keeps_the_user :
  forall (serializer : EmailSerializer) (env : Env) (request : Request)
         (s : Store) (e : string),
    serializer s (data request) = Ok e ->
    (forall r, In r (users s) -> email r <> e /\ username r <> e) ->
    smtp_up env = false ->
    fst (ObtainingConfirmationCodeView_post serializer env request s)
    = Raise SMTPException
    /\ outbox (snd (ObtainingConfirmationCodeView_post serializer env request s))
       = outbox s
    /\ stored_code e
         (snd (ObtainingConfirmationCodeView_post serializer env request s))
       = Some (uuid4 env)
    /\ List.length
         (users (snd (ObtainingConfirmationCodeView_post
                        serializer env request s)))
       = S (List.length (users s)).
Proof.
  intros ser env request s e Hvalid Hfree Hdown.
  unfold ObtainingConfirmationCodeView_post, bindV, run_serializer.
  rewrite Hvalid, (get_or_create_fresh e e (uuid4 env) false s Hfree).
  unfold send_mail. rewrite Hdown. cbv beta iota zeta.
  repeat split.
  - unfold stored_code, User_by_email. simpl users.
    rewrite find_missing.
    + simpl. rewrite String.eqb_refl. reflexivity.
    + intros r Hr. apply String.eqb_neq. exact (proj1 (Hfree r Hr)).
  - simpl users. rewrite length_app. simpl. lia.
Qed.

Lemma failed_delivery_keeps_the_user_witness :
  stored_code "dana@example.com"
    (snd (ObtainingConfirmationCodeView_post
            ObtainingConfirmationCodeSerializer
            (mkEnv 2026 "new-code" false "noreply@example.com")
            Scenario.fresh_request Sample.store))
  = Some "new-code".
Proof.
  refine (proj1 (proj2 (proj2
            (failed_delivery_keeps_the_user
               ObtainingConfirmationCodeSerializer
               (mkEnv 2026 "new-code" false "noreply@example.com")
               Scenario.fresh_request Sample.store "dana@example.com"
               eq_refl _ eq_refl)))).
  intros r [Hr | [Hr | [Hr | [Hr | []]]]]; subst r; simpl;
    split; discriminate.
Defined.

Lemma create_refused_taken (e n c : string) (a : bool) (s : Store) (u : User) :
  In u (users s) -> email u = e \/ username u = n ->
  User_objects_create e n c a s = (Raise IntegrityError, s).
Proof.
  intros Hin Htaken. unfold User_objects_create.
  set (new := mkUser _ _ _ _ _ _ _ _ _ _).
  assert (violates_unique new (users s) = true) as Hv.
  { unfold violates_unique. apply existsb_exists. exists u.
    split; [exact Hin |]. apply andb_true_iff. split.
    - apply negb_true_iff. apply Z.eqb_neq.
      assert (user_pk u < user_pk new) as Hlt
        by (apply next_pk_fresh, in_map, Hin).
      lia.
    - apply orb_true_iff.
      destruct Htaken as [He | Hn];
        [right | left]; apply String.eqb_eq; assumption. }
  rewrite Hv. reflexivity.
Qed.

(** X9: a request whose email is already some user's email or user name,
    made with a code that no stored user carries, ends in the integrity
    error of the refused INSERT: no row is written or changed and no mail is
    sent. *)
Theorem repeated_request_raises_integrity_error :
  forall (serializer : EmailSerializer) (env : Env) (request : Request)
         (s : Store) (e : string) (u : User),
    serializer s (data request) = Ok e ->
    In u (users s) ->
    email u = e \/ username u = e ->
    (forall r, In r (users s) -> confirmation_code r <> uuid4 env) ->
    ObtainingConfirmationCodeView_post serializer env request s
    = (Raise IntegrityError, s).
Proof.
  intros ser env request s e u Hvalid Hin Htaken Hnew.
  assert (filter (fun r => String.eqb (email r) e && String.eqb (username r) e
                           && String.eqb (confirmation_code r) (uuid4 env)
                           && Bool.eqb (is_active r) false) (users s) = [])
    as Hmiss.
  { apply filter_none. intros r Hr.
    pose proof (Hnew r Hr) as Hc. apply String.eqb_neq in Hc.
    rewrite Hc, andb_false_r. reflexivity. }
  unfold ObtainingConfirmationCodeView_post, bindV, run_serializer.
  rewrite Hvalid.
  unfold User_objects_get_or_create, User_objects_get.
  rewrite Hmiss.
  rewrite (create_refused_taken e e (uuid4 env) false s u Hin Htaken).
  rewrite Hmiss. reflexivity.
Qed.

Lemma repeated_request_raises_integrity_error_witness :
  ObtainingConfirmationCodeView_post ObtainingConfirmationCodeSerializer
    Sample.env Sample.code_request Sample.store
  = (Raise IntegrityError, Sample.store).
Proof.
  apply (repeated_request_raises_integrity_error
           ObtainingConfirmationCodeSerializer Sample.env Sample.code_request
           Sample.store "alice@example.com" Sample.alice eq_refl
           (or_introl eq_refl) (or_introl eq_refl)).
  intros r [Hr | [Hr | [Hr | [Hr | []]]]]; subst r; simpl; discriminate.
Defined.

Lemma existsb_false_inv {A : Type} (p : A -> bool) (l : list A) :
  existsb p l = false -> forall x, In x l -> p x = false.
Proof.
  intros Hex x Hx. destruct (p x) eqn:Hp; [| reflexivity].
  assert (existsb p l = true) as H
    by (apply existsb_exists; exists x; split; assumption).
  congruence.
Qed.

Lemma distinct_snoc {K : Type} (eqb : K -> K -> bool) (l : list K) (x : K) :
  (forall a b, eqb a b = true <-> a = b) ->
  distinct eqb l = true -> (forall y, In y l -> y <> x) ->
  distinct eqb (l ++ [x]) = true.
Proof.
  intro Heqb. induction l as [| h l IH]; intros Hd Hne; simpl; [reflexivity |].
  simpl in Hd. apply andb_true_iff in Hd. destruct Hd as [Hh Hd].
  apply andb_true_iff. split.
  - rewrite existsb_app. simpl. apply negb_true_iff in Hh. rewrite Hh. simpl.
    destruct (eqb h x) eqn:Hx; [| reflexivity].
    apply Heqb in Hx. exfalso. exact (Hne h (or_introl eq_refl) Hx).
  - apply IH; [exact Hd |]. intros y Hy. apply Hne. right. exact Hy.
Qed.

Lemma consistent_snoc (s : Store) (new : User) :
  consistent s = true ->
  violates_unique new (users s) = false ->
  (forall r, In r (users s) -> user_pk r <> user_pk new) ->
  consistent (with_users (users s ++ [new])%list s) = true.
Proof.
  unfold consistent. intros Hc Hv Hpk. simpl users.
  apply andb_true_iff in Hc. destruct Hc as [Hc Hn].
  apply andb_true_iff in Hc. destruct Hc as [Hp He].
  assert (forall r, In r (users s) ->
                    username r <> username new /\ email r <> email new)
    as Hkeys.
  { intros r Hr.
    pose proof (existsb_false_inv _ _ Hv r Hr) as Hr'. simpl in Hr'.
    apply andb_false_iff in Hr'. destruct Hr' as [Hr' | Hr'].
    - apply negb_false_iff, Z.eqb_eq in Hr'. exfalso. exact (Hpk r Hr Hr').
    - apply orb_false_iff in Hr'. destruct Hr' as [Hu Hm].
      split; apply String.eqb_neq; assumption. }
  rewrite !map_app. simpl map.
  rewrite (distinct_snoc Z.eqb _ _ Z.eqb_eq Hp),
          (distinct_snoc String.eqb _ _ String.eqb_eq He),
          (distinct_snoc String.eqb _ _ String.eqb_eq Hn).
  - reflexivity.
  - intros y Hy. apply in_map_iff in Hy. destruct Hy as [r [Hy Hr]].
    subst y. exact (proj1 (Hkeys r Hr)).
  - intros y Hy. apply in_map_iff in Hy. destruct Hy as [r [Hy Hr]].
    subst y. exact (proj2 (Hkeys r Hr)).
  - intros y Hy. apply in_map_iff in Hy. destruct Hy as [r [Hy Hr]].
    subst y. exact (Hpk r Hr).
Qed.

Lemma get_or_create_rows (e n c : string) (a : bool) (s : Store) :
  snd (User_objects_get_or_create e n c a s) = s
  \/ exists new : User,
       snd (User_objects_get_or_create e n c a s)
       = with_users (users s ++ [new])%list s
       /\ violates_unique new (users s) = false
       /\ user_pk new = next_pk (map user_pk (users s)).
Proof.
  unfold User_objects_get_or_create, User_objects_get.
  destruct (filter _ (users s)) as [| x [| y l]] eqn:Hf;
    [| left; reflexivity | left; reflexivity].
  unfold User_objects_create.
  destruct (violates_unique _ (users s)) eqn:Hv.
  - left. rewrite Hf. reflexivity.
  - right. eexists. split; [reflexivity | split; [exact Hv | reflexivity]].
Qed.

(** X10: whatever the request, the view never changes or removes a stored
    user, adds at most one, leaves every other table alone, only ever
    appends to the outbox, and keeps primary keys, emails and user names
    unique when they were. *)
Theorem registration_keeps_rows_and_constraints :
  forall (serializer : EmailSerializer) (env : Env) (request : Request)
         (s : Store),
    (exists added : list User,
        users (snd (ObtainingConfirmationCodeView_post
                      serializer env request s))
        = (users s ++ added)%list
        /\ (List.length added <= 1)%nat)
    /\ (exists sent : list Mail,
           outbox (snd (ObtainingConfirmationCodeView_post
                          serializer env request s))
           = (outbox s ++ sent)%list
           /\ (List.length sent <= 1)%nat)
    /\ titles (snd (ObtainingConfirmationCodeView_post
                      serializer env request s)) = titles s
    /\ reviews (snd (ObtainingConfirmationCodeView_post
                       serializer env request s)) = reviews s
    /\ comments (snd (ObtainingConfirmationCodeView_post
                        serializer env request s)) = comments s
    /\ (consistent s = true ->
        consistent (snd (ObtainingConfirmationCodeView_post
                           serializer env request s)) = true).
Proof.
  intros ser env request s.
  assert (forall s1 : Store,
             (exists added, users s1 = (users s ++ added)%list
                            /\ (List.length added <= 1)%nat)
             /\ outbox s1 = outbox s
             /\ titles s1 = titles s /\ reviews s1 = reviews s
             /\ comments s1 = comments s
             /\ (consistent s = true -> consistent s1 = true) ->
             forall (r : result unit) (s2 : Store),
               (s2 = s1 \/ exists m, s2 = with_outbox (outbox s1 ++ [m])%list s1) ->
               (exists added, users s2 = (users s ++ added)%list
                              /\ (List.length added <= 1)%nat)
               /\ (exists sent, outbox s2 = (outbox s ++ sent)%list
                                /\ (List.length sent <= 1)%nat)
               /\ titles s2 = titles s /\ reviews s2 = reviews s
               /\ comments s2 = comments s
               /\ (consistent s = true -> consistent s2 = true)) as Hmail.
  { intros s1 [Hu [Ho [Ht [Hr [Hc Hk]]]]] _ s2 [Hs2 | [m Hs2]]; subst s2.
    - repeat split; try assumption.
      exists []. rewrite app_nil_r. split; [exact Ho | simpl; lia].
    - repeat split; try assumption.
      exists [m]. simpl outbox. rewrite Ho. split; [reflexivity | simpl; lia]. }
  assert ((exists added, users s = (users s ++ added)%list
                         /\ (List.length added <= 1)%nat)
          /\ outbox s = outbox s
          /\ titles s = titles s /\ reviews s = reviews s
          /\ comments s = comments s
          /\ (consistent s = true -> consistent s = true)) as Hsame.
  { repeat split; try tauto.
    exists []. rewrite app_nil_r. split; [reflexivity | simpl; lia]. }
  unfold ObtainingConfirmationCodeView_post, bindV, run_serializer.
  destruct (ser s (data request)) as [e | err];
    [| exact (Hmail s Hsame (Ok tt) s (or_introl eq_refl))].
  pose proof (get_or_create_rows e e (uuid4 env) false s) as Hrows.
  destruct (User_objects_get_or_create e e (uuid4 env) false s)
    as [[created | err] s1]; simpl in Hrows.
  - assert ((exists added, users s1 = (users s ++ added)%list
                           /\ (List.length added <= 1)%nat)
            /\ outbox s1 = outbox s
            /\ titles s1 = titles s /\ reviews s1 = reviews s
            /\ comments s1 = comments s
            /\ (consistent s = true -> consistent s1 = true)) as Hs1.
    { destruct Hrows as [Hrows | [new [Hrows [Hv Hpk]]]]; subst s1;
        [exact Hsame |].
      repeat split.
      - exists [new]. split; [reflexivity | simpl; lia].
      - intro Hc. apply consistent_snoc; [exact Hc | exact Hv |].
        intros r Hr. rewrite Hpk.
        pose proof (next_pk_fresh (map user_pk (users s)) (user_pk r)
                                  (in_map user_pk _ _ Hr)).
        lia. }
    unfold send_mail. destruct (smtp_up env); cbv beta iota zeta.
    + apply (Hmail s1 Hs1 (Ok tt)). right. eexists. reflexivity.
    + apply (Hmail s1 Hs1 (Ok tt)). left. reflexivity.
  - destruct Hrows as [Hrows | [new [Hrows [Hv Hpk]]]]; subst s1.
    + exact (Hmail s Hsame (Ok tt) s (or_introl eq_refl)).
    + apply (Hmail (with_users (users s ++ [new])%list s)); [| exact (Ok tt) |
        left; reflexivity].
      repeat split.
      * exists [new]. split; [reflexivity | simpl; lia].
      * intro Hc. apply consistent_snoc; [exact Hc | exact Hv |].
        intros r Hr. rewrite Hpk.
        pose proof (next_pk_fresh (map user_pk (users s)) (user_pk r)
                                  (in_map user_pk _ _ Hr)).
        lia.
Qed.

Lemma registration_keeps_rows_and_constraints_witness :
  consistent (snd (ObtainingConfirmationCodeView_post
                     ObtainingConfirmationCodeSerializer Sample.env
                     Scenario.fresh_request Sample.store)) = true.
Proof.
  apply (proj2 (proj2 (proj2 (proj2 (proj2
           (registration_keeps_rows_and_constraints
              ObtainingConfirmationCodeSerializer Sample.env
              Scenario.fresh_request Sample.store))))));
    reflexivity.
Defined.

(** ** The token exchange, for any serializer *)

Lemma save_stored_row (s : Store) (u : User) :
  consistent s = true -> In u (users s) -> User_save u s = (Ok tt, s).
Proof.
  intros Hc Hin. unfold User_save.
  rewrite (stored_row_saves s Hc u Hin).
  assert (mem_pk (user_pk u) (map user_pk (users s)) = true) as Hmem
    by (apply mem_pk_In, in_map, Hin).
  rewrite Hmem.
  assert (map (fun r => if user_pk r =? user_pk u then u else r) (users s)
          = users s) as Hmap.
  { rewrite <- (map_id (users s)) at 2. apply map_ext_in. intros r Hr.
    destruct (Z.eqb_spec (user_pk r) (user_pk u)) as [Hpk | Hpk];
      [| reflexivity].
    unfold consistent in Hc. apply andb_true_iff in Hc. destruct Hc as [Hc _].
    apply andb_true_iff in Hc. destruct Hc as [Hp _].
    symmetry.
    exact (distinct_inj user_pk Z.eqb (users s) Z.eqb_eq Hp r u Hr Hin Hpk). }
  rewrite Hmap. destruct s; reflexivity.
Qed.

(** X11: on a store whose keys are unique the exchange writes nothing,
    whatever its serializer lets through, so it never activates a user; it
    hands the serializer's error on, answers 404 when no user holds the
    validated email, and otherwise answers with the access token of the one
    user who does. *)
Theorem token_exchange_outcomes :
  forall (serializer : EmailSerializer) (request : Request) (s : Store),
    consistent s = true ->
    snd (TokenView_post serializer request s) = s
    /\ (forall err, serializer s (data request) = Raise err ->
          fst (TokenView_post serializer request s) = Raise err)
    /\ (forall e, serializer s (data request) = Ok e ->
          (forall r, In r (users s) -> email r <> e) ->
          fst (TokenView_post serializer request s) = Raise Http404)
    /\ (forall e u, serializer s (data request) = Ok e ->
          In u (users s) -> email u = e ->
          fst (TokenView_post serializer request s)
          = Ok (mkResponse [("token", VJwt (mkToken access (user_pk u)))]
                           200)).
Proof.
  intros ser request s Hc.
  assert (distinct String.eqb (map email (users s)) = true) as Hemails.
  { unfold consistent in Hc. apply andb_true_iff in Hc. destruct Hc as [H _].
    apply andb_true_iff in H. tauto. }
  unfold TokenView_post, bindV, run_serializer, get_User_or_404,
    User_objects_get.
  destruct (ser s (data request)) as [e | err]; cbv beta iota zeta.
  - repeat apply conj.
    + destruct (filter (fun r => String.eqb (email r) e) (users s))
        as [| x [| y l]] eqn:Hf; try reflexivity.
      assert (In x (users s)) as Hx.
      { assert (In x (filter (fun r => String.eqb (email r) e) (users s)))
          as H by (rewrite Hf; left; reflexivity).
        apply filter_In in H. tauto. }
      rewrite (save_stored_row s x Hc Hx). reflexivity.
    + intros err H. discriminate H.
    + intros e' He' Hnone. injection He' as He'. subst e'.
      rewrite filter_none; [reflexivity |].
      intros r Hr. apply String.eqb_neq. exact (Hnone r Hr).
    + intros e' u He' Hin Hu. injection He' as He'. subst e' e.
      rewrite (filter_email_single (users s) u Hemails Hin).
      rewrite (save_stored_row s u Hc Hin). reflexivity.
  - repeat apply conj; try reflexivity.
    + intros err' H. injection H as H. subst err'. reflexivity.
    + intros e H. discriminate H.
    + intros e u H. discriminate H.
Qed.

Lemma token_exchange_outcomes_witness :
  fst (TokenView_post (fun _ _ => Ok "nobody@example.com")
                      (presentation "nobody@example.com" "x") Sample.store)
  = Raise Http404.
Proof.
  refine (proj1 (proj2 (proj2
            (token_exchange_outcomes (fun _ _ => Ok "nobody@example.com")
               (presentation "nobody@example.com" "x") Sample.store
               eq_refl)))
            "nobody@example.com" eq_refl _).
  intros r [Hr | [Hr | [Hr | [Hr | []]]]]; subst r; simpl; discriminate.
Defined.

(** ** The [me] action: what it answers *)

Lemma User_save_cases (u' : User) (s : Store) :
  User_save u' s = (Raise IntegrityError, s)
  \/ (fst (User_save u' s) = Ok tt
      /\ forall r, User_by_pk (user_pk u') s = Some r ->
           User_by_pk (user_pk u') (snd (User_save u' s)) = Some u').
Proof.
  unfold User_save, User_by_pk.
  destruct (violates_unique u' (users s)); [left; reflexivity | right].
  destruct (mem_pk (user_pk u') (map user_pk (users s))) eqn:Hmem;
    (split; [reflexivity |]); intros r Hr; simpl.
  - rewrite find_replaced, Hr, Z.eqb_refl. reflexivity.
  - rewrite (find_by_pk_mem (user_pk u') (users s) r Hr) in Hmem.
    discriminate Hmem.
Qed.

(** X12: called with one of the methods the action is bound to (GET, HEAD,
    PATCH) by a stored user, the [me] action either raises and leaves the
    store as it was, or answers 200 with the representation of that user's
    row as it now stands in the store; whatever the method, only a PATCH
    can write, and an anonymous caller is turned away before anything is
    read. *)
Theorem me_answers_with_the_stored_row :
  forall (UserSerializer : UserSerializer_partial)
         (to_representation : User -> Dict) (request : Request) (s : Store),
    (forall u : User,
        user request = LoggedIn u ->
        User_by_pk (user_pk u) s = Some u ->
        (py_in (method request) ["GET"; "HEAD"; "PATCH"] = true ->
         match fst (UserViewSet_me UserSerializer to_representation request s)
         with
         | Ok resp =>
             status resp = 200
             /\ exists u' : User,
                  User_by_pk (user_pk u)
                    (snd (UserViewSet_me UserSerializer to_representation
                                         request s)) = Some u'
                  /\ body resp = to_representation u'
         | Raise _ =>
             method request = "PATCH"
             /\ snd (UserViewSet_me UserSerializer to_representation request s)
                = s
         end)
        /\ (method request <> "PATCH" ->
            snd (UserViewSet_me UserSerializer to_representation request s)
            = s))
    /\ (user request = AnonymousUser ->
        UserViewSet_me UserSerializer to_representation request s
        = (Raise NotAuthenticated, s)).
Proof.
  intros ser repr request s. split.
  - intros u Hu Hrow.
    unfold UserViewSet_me, bindV, lift, raise, ret, run_serializer,
      check_permissions, IsAuthenticated, has_permission, bind.
    rewrite Hu. simpl is_authenticated. cbv beta iota.
    destruct (py_in (method request) ["GET"; "HEAD"; "PATCH"]) eqn:Hbound;
      cbn [negb]; [| split; [discriminate | reflexivity]].
    destruct (String.eqb_spec (method request) "PATCH") as [Hm | Hm].
    + split; [intros _ | intro H; contradiction].
      destruct (ser s u (data request)) as [validated_data | e];
        [| split; [exact Hm | reflexivity]].
      unfold Serializer_save, ModelSerializer_update, bindV, ret.
      set (saved := setattr_items u _).
      assert (user_pk saved = user_pk u) as Hpk by apply update_pk.
      destruct (User_save_cases saved s) as [Hraise | [Hok Hfound]].
      * rewrite Hraise. split; [exact Hm | reflexivity].
      * destruct (User_save saved s) as [[[] | e] s']; simpl in Hok;
          [| discriminate Hok].
        simpl. split; [reflexivity |]. exists saved.
        split; [| reflexivity].
        rewrite <- Hpk. simpl in Hfound. apply (Hfound u).
        rewrite Hpk. exact Hrow.
    + split; [intros _ | intros _; reflexivity].
      simpl. split; [reflexivity |]. exists u. split; [exact Hrow | reflexivity].
  - intro Hu.
    unfold UserViewSet_me, bindV, lift, check_permissions, IsAuthenticated,
      has_permission, permission_denied, bind.
    rewrite Hu. reflexivity.
Qed.

Lemma me_answers_with_the_stored_row_witness :
  match fst (UserViewSet_me Sample.permissive
               (fun u => [("bio", VStr (bio u))]) Sample.patch_me
               Sample.store)
  with
  | Ok resp =>
      status resp = 200
      /\ exists u' : User,
           User_by_pk 1
             (snd (UserViewSet_me Sample.permissive
                     (fun u => [("bio", VStr (bio u))]) Sample.patch_me
                     Sample.store)) = Some u'
           /\ body resp = [("bio", VStr (bio u'))]
  | Raise _ => False
  end.
Proof.
  exact (proj1 (proj1 (me_answers_with_the_stored_row Sample.permissive
                         (fun u => [("bio", VStr (bio u))]) Sample.patch_me
                         Sample.store)
                      Sample.alice eq_refl eq_refl)
               eq_refl).
Defined.

(** ** Reviews and comments under their parents *)

Section Ordering.

Context {Row : Type}.
Variable stamp : Row -> Z.

Lemma insert_newest_In (a x : Row) (l : list Row) :
  In x (insert_newest stamp a l) <-> x = a \/ In x l.
Proof.
  induction l as [| b l IH]; simpl.
  - intuition congruence.
  - destruct (stamp b <=? stamp a); simpl; [intuition congruence |].
    rewrite IH. intuition congruence.
Qed.

Lemma newest_first_In (x : Row) (l : list Row) :
  In x (newest_first stamp l) <-> In x l.
Proof.
  unfold newest_first. induction l as [| a l IH]; simpl; [tauto |].
  rewrite insert_newest_In, IH. intuition congruence.
Qed.

Lemma insert_newest_sorted (a : Row) (l : list Row) :
  Sorted (fun x y => stamp y <= stamp x) l ->
  Sorted (fun x y => stamp y <= stamp x) (insert_newest stamp a l).
Proof.
  induction l as [| b l IH]; intro Hs; simpl.
  - constructor; constructor.
  - destruct (Z.leb_spec (stamp b) (stamp a)) as [Hba | Hab].
    + constructor; [exact Hs | constructor; exact Hba].
    + inversion Hs as [| x y Hl Hhd]; subst.
      constructor; [apply IH; exact Hl |].
      destruct l as [| c l]; simpl.
      * constructor. lia.
      * destruct (stamp c <=? stamp a).
        -- constructor. lia.
        -- constructor. inversion Hhd; assumption.
Qed.

Lemma newest_first_sorted (l : list Row) :
  Sorted (fun x y => stamp y <= stamp x) (newest_first stamp l).
Proof.
  unfold newest_first. induction l as [| a l IH]; simpl;
    [constructor | apply insert_newest_sorted; exact IH].
Qed.

End Ordering.

Section Lookup404.

Context {Row : Type}.
Variable pk : Row -> Z.

Lemma filter_pk_single (rows : list Row) (r : Row) :
  distinct Z.eqb (map pk rows) = true -> In r rows ->
  filter (fun x => pk x =? pk r) rows = [r].
Proof.
  induction rows as [| x rows IH]; simpl; [contradiction |].
  intro Hd. apply andb_true_iff in Hd. destruct Hd as [Hfresh Hd].
  apply negb_true_iff in Hfresh.
  pose proof (fresh_key pk Z.eqb x rows Z.eqb_eq Hfresh) as Hne.
  intros [Hr | Hr].
  - subst x. rewrite Z.eqb_refl. f_equal. apply filter_none.
    intros y Hy. apply Z.eqb_neq. intro He. exact (Hne y Hy (eq_sym He)).
  - destruct (Z.eqb_spec (pk x) (pk r)) as [He | He].
    + exfalso. exact (Hne r Hr He).
    + exact (IH Hd Hr).
Qed.

Lemma get_or_404_found (rows : list Row) (r : Row) :
  distinct Z.eqb (map pk rows) = true -> In r rows ->
  get_or_404 pk (Some (pk r)) rows = Ok r.
Proof.
  intros Hd Hin. unfold get_or_404.
  rewrite (filter_pk_single rows r Hd Hin). reflexivity.
Qed.

Lemma get_or_404_missing (rows : list Row) (id_ : option Z) :
  (forall r, In r rows -> id_ <> Some (pk r)) ->
  get_or_404 pk id_ rows = Raise Http404.
Proof.
  intro Hnone. unfold get_or_404. destruct id_ as [k |]; [| reflexivity].
  rewrite filter_none; [reflexivity |].
  intros r Hr. apply Z.eqb_neq. intro He. apply (Hnone r Hr). congruence.
Qed.

Lemma get_or_404_Ok (rows : list Row) (id_ : option Z) (r : Row) :
  get_or_404 pk id_ rows = Ok r -> In r rows /\ id_ = Some (pk r).
Proof.
  unfold get_or_404. destruct id_ as [k |]; [| discriminate].
  destruct (filter (fun x => pk x =? k) rows) as [| x [| y l]] eqn:Hf;
    try discriminate.
  intro H. injection H as H. subst x.
  assert (In r (filter (fun x => pk x =? k) rows)) as Hin
    by (rewrite Hf; left; reflexivity).
  apply filter_In in Hin. destruct Hin as [Hin Hk]. apply Z.eqb_eq in Hk.
  split; [exact Hin | congruence].
Qed.

End Lookup404.

(** X13: the reviews listed under a title are exactly the stored reviews of
    the title the URL names, newest first, and listing them writes nothing;
    the listing is answered when the title exists and is a 404 when no
    title has that key. *)
Theorem review_queryset_scoped :
  forall (clock : Timestamps) (kwargs : Kwargs) (s : Store),
    snd (ReviewViewSet_get_queryset clock kwargs s) = s
    /\ (forall l : list Review,
          fst (ReviewViewSet_get_queryset clock kwargs s) = Ok l ->
          exists t : Title,
            In t (titles s)
            /\ kwargs_get kwargs "title_id" = Some (title_pk t)
            /\ (forall r, In r l <->
                          In r (reviews s) /\ review_title r = title_pk t)
            /\ Sorted (fun x y => review_pub_date clock (review_pk y)
                                  <= review_pub_date clock (review_pk x)) l)
    /\ (forall t : Title,
          distinct Z.eqb (map title_pk (titles s)) = true ->
          In t (titles s) ->
          kwargs_get kwargs "title_id" = Some (title_pk t) ->
          fst (ReviewViewSet_get_queryset clock kwargs s)
          = Ok (Title_reviews clock t s))
    /\ ((forall t, In t (titles s) ->
                   kwargs_get kwargs "title_id" <> Some (title_pk t)) ->
        fst (ReviewViewSet_get_queryset clock kwargs s) = Raise Http404).
Proof.
  intros clock kwargs s.
  unfold ReviewViewSet_get_queryset, get_Title_or_404, bindV.
  repeat apply conj.
  - destruct (get_or_404 title_pk _ (titles s)); reflexivity.
  - intros l Hl.
    destruct (get_or_404 title_pk (kwargs_get kwargs "title_id") (titles s))
      as [t | e] eqn:Hget; [| discriminate Hl].
    apply get_or_404_Ok in Hget. destruct Hget as [Hin Hid].
    simpl in Hl. injection Hl as Hl. subst l.
    exists t. split; [exact Hin | split; [exact Hid | split]].
    + intro r. unfold Title_reviews.
      rewrite newest_first_In, filter_In, Z.eqb_eq. tauto.
    + apply newest_first_sorted.
  - intros t Hd Hin Hid. rewrite Hid, (get_or_404_found title_pk _ t Hd Hin).
    reflexivity.
  - intro Hnone. rewrite (get_or_404_missing title_pk _ _ Hnone). reflexivity.
Qed.

Lemma review_queryset_scoped_witness :
  fst (ReviewViewSet_get_queryset Scenario.clock Scenario.film_route
                                  Sample.store)
  = Ok (Title_reviews Scenario.clock Sample.film Sample.store).
Proof.
  apply (proj1 (proj2 (proj2 (review_queryset_scoped Scenario.clock
                                Scenario.film_route Sample.store)))
               Sample.film);
    [reflexivity | left; reflexivity | reflexivity].
Defined.

(** X14: [perform_create] either fails on the title lookup and writes
    nothing, or appends one review whose title is the title of the URL and
    whose author is the requesting user, under a key above every stored one;
    it looks at no stored review, so a second review of the same title by
    the same author is stored like the first. *)
Theorem review_perform_create_appends :
  forall (kwargs : Kwargs) (author : User) (fields : Review) (s : Store),
    (forall (r : Review) (s' : Store),
        ReviewViewSet_perform_create kwargs author fields s = (Ok r, s') ->
        s' = with_reviews (reviews s ++ [r])%list s
        /\ review_author r = user_pk author
        /\ kwargs_get kwargs "title_id" = Some (review_title r)
        /\ In (review_title r) (map title_pk (titles s))
        /\ score r = score fields /\ review_text r = review_text fields
        /\ forall x, In x (reviews s) -> review_pk x < review_pk r)
    /\ (forall e : Exception,
          fst (ReviewViewSet_perform_create kwargs author fields s) = Raise e ->
          snd (ReviewViewSet_perform_create kwargs author fields s) = s)
    /\ (forall t : Title,
          distinct Z.eqb (map title_pk (titles s)) = true ->
          In t (titles s) ->
          kwargs_get kwargs "title_id" = Some (title_pk t) ->
          forall rs : list Review,
            is_ok (fst (ReviewViewSet_perform_create kwargs author fields
                          (with_reviews rs s))) = true).
Proof.
  intros kwargs author fields s.
  unfold ReviewViewSet_perform_create, get_Title_or_404, bindV.
  repeat apply conj.
  - intros r s' H.
    destruct (get_or_404 title_pk (kwargs_get kwargs "title_id") (titles s))
      as [t | e] eqn:Hget; [| discriminate H].
    apply get_or_404_Ok in Hget. destruct Hget as [Hin Hid].
    injection H as Hr Hs. subst r s'. simpl.
    repeat split; try assumption.
    + apply in_map. exact Hin.
    + intros x Hx. apply next_pk_fresh, in_map, Hx.
  - intros e H.
    destruct (get_or_404 title_pk _ (titles s)); [discriminate H | reflexivity].
  - intros t Hd Hin Hid rs. simpl titles.
    rewrite Hid, (get_or_404_found title_pk _ t Hd Hin). reflexivity.
Qed.

Lemma review_perform_create_appends_witness :
  is_ok (fst (ReviewViewSet_perform_create Scenario.film_route Sample.alice
                Scenario.second_opinion
                (with_reviews [Sample.review8; Sample.review10]
                              Sample.store))) = true.
Proof.
  apply (proj2 (proj2 (review_perform_create_appends Scenario.film_route
                         Sample.alice Scenario.second_opinion Sample.store))
               Sample.film);
    [reflexivity | left; reflexivity | reflexivity].
Defined.

Lemma perform_create_store (kwargs : Kwargs) (author : User) (fields : Review)
    (s s' : Store) (r : Review) :
  ReviewViewSet_perform_create kwargs author fields s = (Ok r, s') ->
  s' = with_reviews (reviews s ++ [r])%list s /\ score r = score fields.
Proof.
  unfold ReviewViewSet_perform_create, get_Title_or_404, bindV.
  destruct (get_or_404 title_pk _ (titles s)) as [t | e]; [| discriminate].
  intro H. injection H as Hr Hs. subst r s'. split; reflexivity.
Qed.

Lemma filter_snoc {A : Type} (p : A -> bool) (l : list A) (x : A) :
  filter p (l ++ [x]) = (filter p l ++ if p x then [x] else [])%list.
Proof.
  induction l as [| a l IH]; simpl; [destruct (p x); reflexivity |].
  rewrite IH. destruct (p a); reflexivity.
Qed.

Lemma non_null_Some (vs : list Z) : non_null (map Some vs) = vs.
Proof.
  induction vs as [| v vs IH]; simpl; [reflexivity | rewrite IH; reflexivity].
Qed.

(** The aggregate of a title is taken over the scores of its reviews, in
    the order they are stored, and over nothing else. *)
Lemma Avg_over_scores (t : Title) (rs : list Review) :
  Avg (reviews__score t rs)
  = Avg (map Some
           (map score (filter (fun r => review_title r =? title_pk t) rs))).
Proof.
  unfold reviews__score, Avg.
  destruct (filter (fun r => review_title r =? title_pk t) rs)
    as [| r joined]; [reflexivity |].
  rewrite non_null_scores, non_null_Some. reflexivity.
Qed.

(** X15: once a review is created, the scores of its title are the earlier
    ones followed by the new one, the title collection shows that title
    with a rating that is not null and is the aggregate over exactly those
    scores, and it shows every other title as it did before. *)
Theorem created_review_enters_the_rating :
  forall (kwargs : Kwargs) (author : User) (fields : Review)
         (s s' : Store) (r : Review),
    ReviewViewSet_perform_create kwargs author fields s = (Ok r, s') ->
    forall a : AnnotatedTitle,
      In a (TitleViewSet_queryset s') ->
      (title_pk (title a) = review_title r ->
       review_scores (title a) s'
       = (review_scores (title a) s ++ [score fields])%list
       /\ rating a
          = Avg (map Some (review_scores (title a) s ++ [score fields])%list)
       /\ rating a <> None)
      /\ (title_pk (title a) <> review_title r ->
          review_scores (title a) s' = review_scores (title a) s
          /\ In a (TitleViewSet_queryset s)).
Proof.
  intros kwargs author fields s s' r Hcreate a Hin.
  destruct (perform_create_store kwargs author fields s s' r Hcreate)
    as [Hs' Hscore].
  subst s'. unfold TitleViewSet_queryset in Hin.
  apply (proj1 (order_by_name_In _ _)) in Hin. apply in_map_iff in Hin.
  destruct Hin as [t [Ha Ht]]. subst a. simpl in Ht.
  cbn [title rating reviews with_reviews]. unfold review_scores.
  cbn [reviews with_reviews]. rewrite filter_snoc, map_app.
  split.
  - intro Hpk. rewrite <- Hpk, Z.eqb_refl. simpl map. rewrite Hscore.
    split; [reflexivity |].
    assert (Avg (reviews__score t (reviews s ++ [r])%list)
            = Avg (map Some
                     (map score
                        (filter (fun x => review_title x =? title_pk t)
                                (reviews s)) ++ [score fields])%list))
      as Havg.
    { rewrite Avg_over_scores, filter_snoc, map_app.
      rewrite <- Hpk, Z.eqb_refl. simpl map. rewrite Hscore. reflexivity. }
    split; [exact Havg |].
    rewrite Havg. unfold Avg. rewrite non_null_Some.
    destruct (map score (filter (fun x => review_title x =? title_pk t)
                                (reviews s))); discriminate.
  - intro Hpk.
    assert ((review_title r =? title_pk t) = false) as Hne
      by (apply Z.eqb_neq; congruence).
    rewrite Hne. simpl map. rewrite app_nil_r. split; [reflexivity |].
    unfold TitleViewSet_queryset.
    apply (proj2 (order_by_name_In _ _)). apply in_map_iff. exists t.
    split; [| exact Ht].
    assert (reviews__score t (reviews s ++ [r])%list
            = reviews__score t (reviews s)) as Hsame.
    { unfold reviews__score. rewrite filter_snoc, Hne, app_nil_r.
      reflexivity. }
    rewrite Hsame. reflexivity.
Qed.

Lemma created_review_enters_the_rating_witness :
  review_scores Sample.film
    (snd (ReviewViewSet_perform_create Scenario.film_route Sample.alice
            Scenario.second_opinion Sample.store))
  = [8; 10; 3]
  /\ Avg (reviews__score Sample.film
            (reviews (snd (ReviewViewSet_perform_create Scenario.film_route
                             Sample.alice Scenario.second_opinion
                             Sample.store))))
     <> None.
Proof.
  pose proof (proj1 (created_review_enters_the_rating Scenario.film_route
                       Sample.alice Scenario.second_opinion Sample.store
                       _ _ eq_refl
                       (mkAnnotated Sample.film
                          (Avg (reviews__score Sample.film
                                  (reviews (snd (ReviewViewSet_perform_create
                                                   Scenario.film_route
                                                   Sample.alice
                                                   Scenario.second_opinion
                                                   Sample.store))))))
                       (or_intror (or_introl eq_refl))) eq_refl)
    as [Hscores [_ Hsome]].
  split; [exact Hscores | exact Hsome].
Defined.

(** X24: a title is shown with a null rating exactly when no stored review
    references it; a title with a review is never shown with null. *)
Theorem rating_null_iff_no_reviews :
  forall (s : Store) (a : AnnotatedTitle),
    In a (TitleViewSet_queryset s) ->
    (rating a = None <-> review_scores (title a) s = [])
    /\ (rating a = None <->
        forall r, In r (reviews s) -> review_title r <> title_pk (title a)).
Proof.
  intros s a Hin. unfold TitleViewSet_queryset in Hin.
  apply (proj1 (order_by_name_In _ _)) in Hin. apply in_map_iff in Hin.
  destruct Hin as [t [Ha _]]. subst a. cbn [title rating].
  assert (Avg (reviews__score t (reviews s)) = None
          <-> review_scores t s = []) as Hnull.
  { rewrite Avg_over_scores. unfold review_scores, Avg.
    rewrite non_null_Some.
    destruct (map score (filter (fun r => review_title r =? title_pk t)
                                (reviews s)));
      split; intro H; try reflexivity; discriminate H. }
  split; [exact Hnull |]. rewrite Hnull. unfold review_scores. split.
  - intros Hnil r Hr Ht.
    assert (In r (filter (fun x => review_title x =? title_pk t) (reviews s)))
      as Hf by (apply filter_In; split; [exact Hr | apply Z.eqb_eq; exact Ht]).
    apply (in_map score) in Hf. rewrite Hnil in Hf. exact Hf.
  - intro Hnone. rewrite filter_none; [reflexivity |].
    intros r Hr. apply Z.eqb_neq. exact (Hnone r Hr).
Qed.

Lemma rating_null_iff_no_reviews_witness :
  review_scores Sample.book Sample.store = [].
Proof.
  apply (proj1 (proj1 (rating_null_iff_no_reviews Sample.store
                         (mkAnnotated Sample.book None)
                         (or_introl eq_refl)))).
  reflexivity.
Defined.

Lemma authenticated_passes (request : Request) (u : User) :
  user request = LoggedIn u ->
  check_permissions ReviewViewSet_permission_classes request = Ok tt.
Proof.
  intro Hu.
  unfold check_permissions, ReviewViewSet_permission_classes,
    IsAuthenticatedOrReadOnly, IsAuthorOrStaffOrReadOnly, has_permission,
    default_has_permission, bind, truthy.
  rewrite Hu. simpl. rewrite orb_true_r. reflexivity.
Qed.

Lemma Review_delete_tables (k : Z) (s : Store) :
  reviews (Review_delete k s) = delete_by_pk review_pk [k] (reviews s)
  /\ comments (Review_delete k s)
     = delete_by_pk comment_pk
         (map comment_pk (filter (fun c => comment_review c =? k) (comments s)))
         (comments s)
  /\ titles (Review_delete k s) = titles s
  /\ users (Review_delete k s) = users s
  /\ categories (Review_delete k s) = categories s.
Proof.
  assert (forall cs : list Comment,
             filter (fun c => references (Some (comment_review c)) [k]) cs
             = filter (fun c => comment_review c =? k) cs) as Hf.
  { intro cs. apply filter_ext. intro c. simpl. apply orb_false_r. }
  unfold Review_delete, delete_reviews, ForeignKeys.Comment_review.
  simpl. rewrite Hf. repeat split.
Qed.

(** X16: a DELETE on a review either raises and leaves the store as it was,
    or answers 204 after removing a stored review that has the key and the
    title the URL names, on behalf of an authenticated subject who wrote it
    or has the admin or moderator role; with it go exactly its comments, and
    no other review, title or user. *)
Theorem review_destroy_outcomes :
  forall (clock : Timestamps) (kwargs : Kwargs) (request : Request)
         (s : Store),
    method request = "DELETE" ->
    match ReviewViewSet_destroy clock kwargs request s with
    | (Raise _, s') => s' = s
    | (Ok resp, s') =>
        status resp = 204
        /\ exists (r : Review) (u : User),
             In r (reviews s)
             /\ kwargs_get kwargs "pk" = Some (review_pk r)
             /\ kwargs_get kwargs "title_id" = Some (review_title r)
             /\ user request = LoggedIn u
             /\ (review_author r = user_pk u
                 \/ role u = UserRoles.ADMIN \/ role u = UserRoles.MODERATOR)
             /\ (forall x, In x (reviews s') <->
                           In x (reviews s) /\ review_pk x <> review_pk r)
             /\ (forall c, In c (comments s') ->
                           In c (comments s)
                           /\ comment_review c <> review_pk r)
             /\ (forall c, In c (comments s) ->
                           comment_review c <> review_pk r ->
                           distinct Z.eqb (map comment_pk (comments s)) = true ->
                           In c (comments s'))
             /\ titles s' = titles s /\ users s' = users s
    end.
Proof.
  intros clock kwargs request s Hm.
  unfold ReviewViewSet_destroy, bindV, lift.
  assert (py_in (method request) SAFE_METHODS = false) as Hunsafe
    by (rewrite Hm; reflexivity).
  destruct (user request) as [| u] eqn:Hu.
  { unfold check_permissions, ReviewViewSet_permission_classes,
      IsAuthenticatedOrReadOnly, has_permission, permission_denied, bind,
      truthy.
    rewrite Hu, Hunsafe. reflexivity. }
  rewrite (authenticated_passes request u Hu).
  unfold ReviewViewSet_get_queryset, get_Title_or_404, bindV.
  destruct (get_or_404 title_pk (kwargs_get kwargs "title_id") (titles s))
    as [t | e] eqn:Ht; [| reflexivity].
  apply get_or_404_Ok in Ht. destruct Ht as [Htin Htid].
  destruct (get_or_404 review_pk (kwargs_get kwargs "pk")
                       (Title_reviews clock t s)) as [r | e] eqn:Hr;
    [| reflexivity].
  apply get_or_404_Ok in Hr. destruct Hr as [Hrin Hrid].
  unfold Title_reviews in Hrin. apply (proj1 (newest_first_In _ _ _)) in Hrin.
  apply filter_In in Hrin. destruct Hrin as [Hrin Hrt]. apply Z.eqb_eq in Hrt.
  unfold check_object_permissions, ReviewViewSet_permission_classes,
    IsAuthenticatedOrReadOnly, IsAuthorOrStaffOrReadOnly,
    has_object_permission, default_has_object_permission, bind, truthy.
  rewrite (IsAuthorOrStaffOrReadOnly_logged_in request u (ReviewObj r) Hu).
  rewrite Hunsafe. cbn [orb author_id].
  unfold permission_denied. rewrite Hu. cbn [is_authenticated].
  destruct ((review_author r =? user_pk u) || admin u || moderator u) eqn:Hwho;
    [| reflexivity].
  destruct (Review_delete_tables (review_pk r) s)
    as [Hrs [Hcs [Hts [Hus _]]]].
  split; [reflexivity |]. exists r, u.
  split; [exact Hrin |]. split; [exact Hrid |].
  split; [congruence |]. split; [reflexivity |].
  split.
  { apply orb_true_iff in Hwho. destruct Hwho as [Hwho | Hwho].
    - apply orb_true_iff in Hwho. destruct Hwho as [Hwho | Hwho].
      + left. apply Z.eqb_eq. exact Hwho.
      + right. left. apply admin_iff. exact Hwho.
    - right. right. apply moderator_iff. exact Hwho. }
  split.
  { intro x. rewrite Hrs, delete_by_pk_In. simpl. intuition congruence. }
  split.
  { intros c Hc. rewrite Hcs in Hc. apply delete_by_pk_In in Hc.
    destruct Hc as [Hc Hdead]. split; [exact Hc |].
    intro Href. apply Hdead. apply in_map. apply filter_In.
    split; [exact Hc | apply Z.eqb_eq; exact Href]. }
  split; [| split; assumption].
  intros c Hc Href Hd. rewrite Hcs. apply delete_by_pk_In.
  split; [exact Hc |]. intro Hdead. apply in_map_iff in Hdead.
  destruct Hdead as [c2 [Hpk Hc2]]. apply filter_In in Hc2.
  destruct Hc2 as [Hc2 Hk]. apply Z.eqb_eq in Hk.
  assert (c2 = c) as Heq
    by (apply (distinct_inj comment_pk Z.eqb (comments s) Z.eqb_eq Hd);
        assumption).
  subst c2. exact (Href Hk).
Qed.

Lemma review_destroy_outcomes_witness :
  match ReviewViewSet_destroy Scenario.clock [("title_id", 2); ("pk", 1)]
                              (Sample.delete_by Sample.alice) Sample.store
  with
  | (Raise _, s') => s' = Sample.store
  | (Ok _, _) => False
  end.
Proof.
  pose proof (review_destroy_outcomes Scenario.clock
                [("title_id", 2); ("pk", 1)] (Sample.delete_by Sample.alice)
                Sample.store eq_refl) as H.
  exact H.
Defined.

(** X17: the comments listed under a review are exactly the stored comments
    of the review the URL names, newest first; the listing writes nothing,
    is a 404 when no review has that key, and depends on no other part of
    the URL: the title named there is never looked at. *)
Theorem comment_queryset_scoped :
  forall (clock : Timestamps) (kwargs : Kwargs) (s : Store),
    snd (CommentViewSet_get_queryset clock kwargs s) = s
    /\ (forall l : list Comment,
          fst (CommentViewSet_get_queryset clock kwargs s) = Ok l ->
          exists r : Review,
            In r (reviews s)
            /\ kwargs_get kwargs "review_id" = Some (review_pk r)
            /\ (forall c, In c l <->
                          In c (comments s) /\ comment_review c = review_pk r)
            /\ Sorted (fun x y => comment_pub_date clock (comment_pk y)
                                  <= comment_pub_date clock (comment_pk x)) l)
    /\ (forall kwargs' : Kwargs,
          kwargs_get kwargs' "review_id" = kwargs_get kwargs "review_id" ->
          CommentViewSet_get_queryset clock kwargs' s
          = CommentViewSet_get_queryset clock kwargs s)
    /\ ((forall r, In r (reviews s) ->
                   kwargs_get kwargs "review_id" <> Some (review_pk r)) ->
        fst (CommentViewSet_get_queryset clock kwargs s) = Raise Http404).
Proof.
  intros clock kwargs s.
  unfold CommentViewSet_get_queryset, get_Review_or_404, bindV.
  repeat apply conj.
  - destruct (get_or_404 review_pk _ (reviews s)); reflexivity.
  - intros l Hl.
    destruct (get_or_404 review_pk (kwargs_get kwargs "review_id") (reviews s))
      as [r | e] eqn:Hget; [| discriminate Hl].
    apply get_or_404_Ok in Hget. destruct Hget as [Hin Hid].
    simpl in Hl. injection Hl as Hl. subst l.
    exists r. split; [exact Hin | split; [exact Hid | split]].
    + intro c. unfold Review_comments.
      rewrite newest_first_In, filter_In, Z.eqb_eq. tauto.
    + apply newest_first_sorted.
  - intros kwargs' Hsame. rewrite Hsame. reflexivity.
  - intro Hnone. rewrite (get_or_404_missing review_pk _ _ Hnone). reflexivity.
Qed.

Lemma comment_queryset_scoped_witness :
  CommentViewSet_get_queryset Scenario.clock
    [("title_id", 777); ("review_id", 2)] Sample.store
  = CommentViewSet_get_queryset Scenario.clock
      [("title_id", 1); ("review_id", 2)] Sample.store.
Proof.
  apply (proj1 (proj2 (proj2 (comment_queryset_scoped Scenario.clock
                                [("title_id", 1); ("review_id", 2)]
                                Sample.store)))
               [("title_id", 777); ("review_id", 2)]).
  reflexivity.
Defined.

Lemma authenticated_passes_comments (request : Request) (u : User) :
  user request = LoggedIn u ->
  check_permissions CommentViewSet_permission_classes request = Ok tt.
Proof. exact (authenticated_passes request u). Qed.

(** X18: a DELETE on a comment either raises and leaves the store as it
    was, or answers 204 after removing the stored comment that has the key
    the URL names under the review it names, on behalf of an authenticated
    subject who wrote it or has the admin or moderator role; nothing but
    the comment table changes. *)
Theorem comment_destroy_outcomes :
  forall (clock : Timestamps) (kwargs : Kwargs) (request : Request)
         (s : Store),
    method request = "DELETE" ->
    match CommentViewSet_destroy clock kwargs request s with
    | (Raise _, s') => s' = s
    | (Ok resp, s') =>
        status resp = 204
        /\ exists (c : Comment) (u : User),
             In c (comments s)
             /\ kwargs_get kwargs "pk" = Some (comment_pk c)
             /\ kwargs_get kwargs "review_id" = Some (comment_review c)
             /\ user request = LoggedIn u
             /\ (comment_author c = user_pk u
                 \/ role u = UserRoles.ADMIN \/ role u = UserRoles.MODERATOR)
             /\ (forall x, In x (comments s') <->
                           In x (comments s) /\ comment_pk x <> comment_pk c)
             /\ reviews s' = reviews s /\ titles s' = titles s
             /\ users s' = users s
    end.
Proof.
  intros clock kwargs request s Hm.
  unfold CommentViewSet_destroy, bindV, lift.
  assert (py_in (method request) SAFE_METHODS = false) as Hunsafe
    by (rewrite Hm; reflexivity).
  destruct (user request) as [| u] eqn:Hu.
  { unfold check_permissions, CommentViewSet_permission_classes,
      IsAuthenticatedOrReadOnly, has_permission, permission_denied, bind,
      truthy.
    rewrite Hu, Hunsafe. reflexivity. }
  rewrite (authenticated_passes_comments request u Hu).
  unfold CommentViewSet_get_queryset, get_Review_or_404, bindV.
  destruct (get_or_404 review_pk (kwargs_get kwargs "review_id") (reviews s))
    as [r | e] eqn:Hr; [| reflexivity].
  apply get_or_404_Ok in Hr. destruct Hr as [Hrin Hrid].
  destruct (get_or_404 comment_pk (kwargs_get kwargs "pk")
                       (Review_comments clock r s)) as [c | e] eqn:Hc;
    [| reflexivity].
  apply get_or_404_Ok in Hc. destruct Hc as [Hcin Hcid].
  unfold Review_comments in Hcin. apply (proj1 (newest_first_In _ _ _)) in Hcin.
  apply filter_In in Hcin. destruct Hcin as [Hcin Hcr]. apply Z.eqb_eq in Hcr.
  unfold check_object_permissions, CommentViewSet_permission_classes,
    IsAuthenticatedOrReadOnly, IsAuthorOrStaffOrReadOnly,
    has_object_permission, default_has_object_permission, bind, truthy.
  rewrite (IsAuthorOrStaffOrReadOnly_logged_in request u (CommentObj c) Hu).
  rewrite Hunsafe. cbn [orb author_id].
  unfold permission_denied. rewrite Hu. cbn [is_authenticated].
  destruct ((comment_author c =? user_pk u) || admin u || moderator u)
    eqn:Hwho; [| reflexivity].
  split; [reflexivity |]. exists c, u.
  split; [exact Hcin |]. split; [exact Hcid |].
  split; [congruence |]. split; [reflexivity |].
  split.
  { apply orb_true_iff in Hwho. destruct Hwho as [Hwho | Hwho].
    - apply orb_true_iff in Hwho. destruct Hwho as [Hwho | Hwho].
      + left. apply Z.eqb_eq. exact Hwho.
      + right. left. apply admin_iff. exact Hwho.
    - right. right. apply moderator_iff. exact Hwho. }
  split; [| repeat split].
  intro x. simpl comments. rewrite delete_by_pk_In. simpl.
  intuition congruence.
Qed.

Lemma comment_destroy_outcomes_witness :
  match CommentViewSet_destroy Scenario.clock [("review_id", 2); ("pk", 1)]
                               (Sample.delete_by Sample.root) Sample.store
  with
  | (Raise _, s') => s' = Sample.store
  | (Ok _, _) => False
  end.
Proof.
  pose proof (comment_destroy_outcomes Scenario.clock
                [("review_id", 2); ("pk", 1)] (Sample.delete_by Sample.root)
                Sample.store eq_refl) as H.
  exact H.
Defined.

(** ** Cascades and foreign keys *)

Lemma delete_by_pk_keys {Row : Type} (pk : Row -> Z) (dead : list Z)
    (rows : list Row) (k : Z) :
  In k (map pk (delete_by_pk pk dead rows))
  <-> In k (map pk rows) /\ ~ In k dead.
Proof.
  rewrite !in_map_iff. split.
  - intros [r [Hk Hr]]. apply delete_by_pk_In in Hr. destruct Hr as [Hr Hd].
    subst k. split; [exists r; split; [reflexivity | exact Hr] | exact Hd].
  - intros [[r [Hk Hr]] Hd]. exists r. split; [exact Hk |].
    apply delete_by_pk_In. split; [exact Hr | congruence].
Qed.

Lemma User_delete_tables (k : Z) (s : Store) :
  users (User_delete k s) = delete_by_pk user_pk [k] (users s)
  /\ reviews (User_delete k s)
     = delete_by_pk review_pk
         (map review_pk (filter (fun r => review_author r =? k) (reviews s)))
         (reviews s)
  /\ comments (User_delete k s)
     = delete_by_pk comment_pk
         (map comment_pk
            (filter (fun c =>
                       mem_pk (comment_review c)
                         (map review_pk
                            (filter (fun r => review_author r =? k)
                                    (reviews s))))
               (delete_by_pk comment_pk
                  (map comment_pk
                     (filter (fun c => comment_author c =? k) (comments s)))
                  (comments s))))
         (delete_by_pk comment_pk
            (map comment_pk
               (filter (fun c => comment_author c =? k) (comments s)))
            (comments s))
  /\ titles (User_delete k s) = titles s
  /\ categories (User_delete k s) = categories s.
Proof.
  assert (forall rs : list Review,
             filter (fun r => references (Some (review_author r)) [k]) rs
             = filter (fun r => review_author r =? k) rs) as Hr.
  { intro rs. apply filter_ext. intro r. simpl. apply orb_false_r. }
  assert (forall cs : list Comment,
             filter (fun c => references (Some (comment_author c)) [k]) cs
             = filter (fun c => comment_author c =? k) cs) as Hc.
  { intro cs. apply filter_ext. intro c. simpl. apply orb_false_r. }
  unfold User_delete, delete_reviews, ForeignKeys.Review_author,
    ForeignKeys.Comment_author, ForeignKeys.Comment_review.
  simpl. rewrite Hr, Hc. repeat split.
Qed.

(** X19: deleting a user removes the user, every review the user wrote,
    every comment the user wrote and every comment on a review the user
    wrote; titles and categories stay, and so does every review of another
    author. *)
Theorem user_delete_cascades :
  forall (s : Store) (k : Z),
    (forall u, In u (users (User_delete k s)) ->
               In u (users s) /\ user_pk u <> k)
    /\ (forall r, In r (reviews (User_delete k s)) ->
                  In r (reviews s) /\ review_author r <> k)
    /\ (forall c, In c (comments (User_delete k s)) ->
                  In c (comments s) /\ comment_author c <> k
                  /\ forall r, In r (reviews s) -> review_author r = k ->
                               comment_review c <> review_pk r)
    /\ titles (User_delete k s) = titles s
    /\ categories (User_delete k s) = categories s
    /\ (distinct Z.eqb (map review_pk (reviews s)) = true ->
        forall r, In r (reviews s) -> review_author r <> k ->
                  In r (reviews (User_delete k s))).
Proof.
  intros s k.
  destruct (User_delete_tables k s) as [Hus [Hrs [Hcs [Hts Hcats]]]].
  repeat apply conj; try assumption.
  - intros u Hu. rewrite Hus in Hu. apply delete_by_pk_In in Hu.
    destruct Hu as [Hu Hk]. split; [exact Hu |].
    intro Heq. apply Hk. left. symmetry. exact Heq.
  - intros r Hr. rewrite Hrs in Hr. apply delete_by_pk_In in Hr.
    destruct Hr as [Hr Hdead]. split; [exact Hr |].
    intro Ha. apply Hdead. apply in_map. apply filter_In.
    split; [exact Hr | apply Z.eqb_eq; exact Ha].
  - intros c Hc. rewrite Hcs in Hc. apply delete_by_pk_In in Hc.
    destruct Hc as [Hc Hdead2]. pose proof Hc as Hc1.
    apply delete_by_pk_In in Hc1. destruct Hc1 as [Hc0 Hdead1].
    split; [exact Hc0 | split].
    + intro Ha. apply Hdead1. apply in_map. apply filter_In.
      split; [exact Hc0 | apply Z.eqb_eq; exact Ha].
    + intros r Hr Ha Href. apply Hdead2. apply in_map. apply filter_In.
      split; [exact Hc |]. apply mem_pk_In. rewrite Href. apply in_map.
      apply filter_In. split; [exact Hr | apply Z.eqb_eq; exact Ha].
  - intros Hd r Hr Ha. rewrite Hrs. apply delete_by_pk_In.
    split; [exact Hr |]. intro Hdead. apply in_map_iff in Hdead.
    destruct Hdead as [r2 [Hpk Hr2]]. apply filter_In in Hr2.
    destruct Hr2 as [Hr2 Hk]. apply Z.eqb_eq in Hk.
    assert (r2 = r) as Heq
      by (apply (distinct_inj review_pk Z.eqb (reviews s) Z.eqb_eq Hd);
          assumption).
    subst r2. exact (Ha Hk).
Qed.

Lemma user_delete_cascades_witness :
  In Sample.review10 (reviews (User_delete 1 Sample.store))
  /\ ~ In Sample.comment1 (comments (User_delete 1 Sample.store)).
Proof.
  split.
  - apply (proj2 (proj2 (proj2 (proj2 (proj2
             (user_delete_cascades Sample.store 1))))));
      [reflexivity | right; left; reflexivity | discriminate].
  - intro Hin.
    destruct (proj1 (proj2 (proj2 (user_delete_cascades Sample.store 1)))
                    Sample.comment1 Hin) as [_ [Hauthor _]].
    apply Hauthor. reflexivity.
Defined.

Lemma foreign_keys_hold_iff (s : Store) :
  foreign_keys_hold s = true
  <-> (forall t c, In t (titles s) -> category t = Some c ->
                   In c (map category_pk (categories s)))
      /\ (forall r, In r (reviews s) ->
                    In (review_title r) (map title_pk (titles s))
                    /\ In (review_author r) (map user_pk (users s)))
      /\ (forall c, In c (comments s) ->
                    In (comment_review c) (map review_pk (reviews s))
                    /\ In (comment_author c) (map user_pk (users s))).
Proof.
  unfold foreign_keys_hold. rewrite !andb_true_iff, !forallb_forall.
  split.
  - intros [[Ht Hr] Hc]. repeat apply conj.
    + intros t c Hin Hcat. specialize (Ht t Hin). rewrite Hcat in Ht.
      apply mem_pk_In. exact Ht.
    + intros r Hin. specialize (Hr r Hin). apply andb_true_iff in Hr.
      split; apply mem_pk_In; tauto.
    + intros c Hin. specialize (Hc c Hin). apply andb_true_iff in Hc.
      split; apply mem_pk_In; tauto.
  - intros [Ht [Hr Hc]]. repeat apply conj.
    + intros t Hin. destruct (category t) as [c |] eqn:Hcat; [| reflexivity].
      apply mem_pk_In. exact (Ht t c Hin Hcat).
    + intros r Hin. destruct (Hr r Hin) as [H1 H2].
      apply andb_true_iff. split; apply mem_pk_In; assumption.
    + intros c Hin. destruct (Hc c Hin) as [H1 H2].
      apply andb_true_iff. split; apply mem_pk_In; assumption.
Qed.

Lemma Title_delete_frame (k : Z) (s : Store) :
  users (Title_delete k s) = users s
  /\ categories (Title_delete k s) = categories s.
Proof.
  unfold Title_delete, delete_titles, delete_reviews,
    ForeignKeys.Review_title, ForeignKeys.Comment_review.
  simpl. split; reflexivity.
Qed.

Lemma Category_delete_frame (k : Z) (s : Store) :
  users (Category_delete k s) = users s
  /\ categories (Category_delete k s)
     = delete_by_pk category_pk [k] (categories s)
  /\ map title_pk (titles (Category_delete k s)) = map title_pk (titles s).
Proof.
  split; [| split].
  - unfold Category_delete, ForeignKeys.Title_category, collect.
    cbv beta iota zeta. rewrite delete_titles_nil. reflexivity.
  - unfold Category_delete, ForeignKeys.Title_category, collect.
    cbv beta iota zeta. rewrite delete_titles_nil. reflexivity.
  - rewrite Category_delete_titles, map_map. apply map_ext.
    intro t. destruct (references (category t) [k]); reflexivity.
Qed.

Section Integrity.

Variable s : Store.
Hypothesis Hfk : foreign_keys_hold s = true.

Lemma Title_delete_integrity (k : Z) :
  foreign_keys_hold (Title_delete k s) = true.
Proof.
  apply foreign_keys_hold_iff.
  apply (proj1 (foreign_keys_hold_iff s)) in Hfk.
  destruct Hfk as [Ht [Hr Hc]].
  destruct (Title_delete_tables k s) as [Hts [Hrs Hcs]].
  destruct (Title_delete_frame k s) as [Hus Hcats].
  rewrite Hts, Hrs, Hcs, Hus, Hcats. repeat apply conj.
  - intros t c Hin Hcat. apply delete_by_pk_In in Hin.
    exact (Ht t c (proj1 Hin) Hcat).
  - intros r Hin. apply delete_by_pk_In in Hin. destruct Hin as [Hin Hdead].
    split; [| exact (proj2 (Hr r Hin))].
    apply delete_by_pk_keys. split; [exact (proj1 (Hr r Hin)) |].
    intros [Hk | []]. apply Hdead. apply reviews_of_title_In;
      [exact Hin | symmetry; exact Hk].
  - intros c Hin. apply delete_by_pk_In in Hin. destruct Hin as [Hin Hdead].
    split; [| exact (proj2 (Hc c Hin))].
    apply delete_by_pk_keys. split; [exact (proj1 (Hc c Hin)) |].
    intro Hgone. apply Hdead. apply in_map. apply filter_In.
    split; [exact Hin | apply mem_pk_In; exact Hgone].
Qed.

Lemma Review_delete_integrity (k : Z) :
  foreign_keys_hold (Review_delete k s) = true.
Proof.
  apply foreign_keys_hold_iff.
  apply (proj1 (foreign_keys_hold_iff s)) in Hfk.
  destruct Hfk as [Ht [Hr Hc]].
  destruct (Review_delete_tables k s) as [Hrs [Hcs [Hts [Hus Hcats]]]].
  rewrite Hts, Hrs, Hcs, Hus, Hcats. repeat apply conj.
  - exact Ht.
  - intros r Hin. apply delete_by_pk_In in Hin. exact (Hr r (proj1 Hin)).
  - intros c Hin. apply delete_by_pk_In in Hin. destruct Hin as [Hin Hdead].
    split; [| exact (proj2 (Hc c Hin))].
    apply delete_by_pk_keys. split; [exact (proj1 (Hc c Hin)) |].
    intros [Hk | []]. apply Hdead. apply in_map. apply filter_In.
    split; [exact Hin | apply Z.eqb_eq; symmetry; exact Hk].
Qed.

Lemma Category_delete_integrity (k : Z) :
  foreign_keys_hold (Category_delete k s) = true.
Proof.
  apply foreign_keys_hold_iff.
  apply (proj1 (foreign_keys_hold_iff s)) in Hfk.
  destruct Hfk as [Ht [Hr Hc]].
  destruct (Category_delete_frame k s) as [Hus [Hcats Hpks]].
  destruct (Category_delete_reviews k s) as [Hrs Hcs].
  rewrite Hrs, Hcs, Hus, Hcats, Hpks. repeat apply conj.
  - intros t c Hin Hcat. rewrite Category_delete_titles in Hin.
    apply in_map_iff in Hin. destruct Hin as [t0 [Ht0 Hin]].
    destruct (references (category t0) [k]) eqn:Href; subst t;
      [discriminate Hcat |].
    apply delete_by_pk_keys. split; [exact (Ht t0 c Hin Hcat) |].
    intros [Hk | []]. subst c. rewrite Hcat in Href. simpl in Href.
    rewrite Z.eqb_refl in Href. discriminate Href.
  - exact Hr.
  - exact Hc.
Qed.

Lemma User_delete_integrity (k : Z) :
  foreign_keys_hold (User_delete k s) = true.
Proof.
  apply foreign_keys_hold_iff.
  apply (proj1 (foreign_keys_hold_iff s)) in Hfk.
  destruct Hfk as [Ht [Hr Hc]].
  destruct (User_delete_tables k s) as [Hus [Hrs [Hcs [Hts Hcats]]]].
  rewrite Hts, Hrs, Hcs, Hus, Hcats. repeat apply conj.
  - exact Ht.
  - intros r Hin. apply delete_by_pk_In in Hin. destruct Hin as [Hin Hdead].
    split; [exact (proj1 (Hr r Hin)) |].
    apply delete_by_pk_keys. split; [exact (proj2 (Hr r Hin)) |].
    intros [Hk | []]. apply Hdead. apply in_map. apply filter_In.
    split; [exact Hin | apply Z.eqb_eq; symmetry; exact Hk].
  - intros c Hin. apply delete_by_pk_In in Hin. destruct Hin as [Hin Hdead2].
    pose proof Hin as Hin1. apply delete_by_pk_In in Hin1.
    destruct Hin1 as [Hin0 Hdead1]. split.
    + apply delete_by_pk_keys. split; [exact (proj1 (Hc c Hin0)) |].
      intro Hgone. apply Hdead2. apply in_map. apply filter_In.
      split; [exact Hin | apply mem_pk_In; exact Hgone].
    + apply delete_by_pk_keys. split; [exact (proj2 (Hc c Hin0)) |].
      intros [Hk | []]. apply Hdead1. apply in_map. apply filter_In.
      split; [exact Hin0 | apply Z.eqb_eq; symmetry; exact Hk].
Qed.

End Integrity.

(** X20: in a store where every foreign key points at a stored row, it
    still does after a category, a title, a review or a user is deleted:
    the declared [on_delete] rules leave no dangling reference. *)
Theorem deletions_keep_foreign_keys :
  forall (s : Store) (k : Z),
    foreign_keys_hold s = true ->
    foreign_keys_hold (Category_delete k s) = true
    /\ foreign_keys_hold (Title_delete k s) = true
    /\ foreign_keys_hold (Review_delete k s) = true
    /\ foreign_keys_hold (User_delete k s) = true.
Proof.
  intros s k Hfk. repeat apply conj.
  - exact (Category_delete_integrity s Hfk k).
  - exact (Title_delete_integrity s Hfk k).
  - exact (Review_delete_integrity s Hfk k).
  - exact (User_delete_integrity s Hfk k).
Qed.

Lemma deletions_keep_foreign_keys_witness :
  foreign_keys_hold (User_delete 4 Sample.store) = true.
Proof.
  apply (proj2 (proj2 (proj2
           (deletions_keep_foreign_keys Sample.store 4 eq_refl)))).
Defined.



(** ** Writing the catalogue *)

(** X22: a POST that creates a title either raises and leaves the store as
    it was, or comes from an authenticated subject with the staff flag or
    the admin role, carries a year inside the valid range, and appends
    exactly the submitted columns as one title under a key above every
    stored one. *)
Theorem title_create_outcomes :
  forall (env : Env) (request : Request) (fields : Title) (s : Store),
    method request = "POST" ->
    match TitleViewSet_create env request fields s with
    | (Raise _, s') => s' = s
    | (Ok t, s') =>
        s' = with_titles (titles s ++ [t])%list s
        /\ (exists u : User,
               user request = LoggedIn u
               /\ (is_staff u = true \/ role u = UserRoles.ADMIN))
        /\ -40000 <= year fields <= today_year env + 10
        /\ title_name t = title_name fields /\ year t = year fields
        /\ description t = description fields /\ genre t = genre fields
        /\ category t = category fields
        /\ forall x, In x (titles s) -> title_pk x < title_pk t
    end.
Proof.
  intros env request fields s Hpost.
  unfold TitleViewSet_create, bindV, lift.
  rewrite check_IsAdminOrReadOnly_cases, check_IsAdmin_cases, Hpost.
  change (py_in "POST" SAFE_METHODS) with false. cbv beta iota.
  destruct (user request) as [| u] eqn:Hu; [reflexivity |].
  destruct (is_staff u || admin u) eqn:Hgate; [| reflexivity].
  unfold Title_year_validators, run_validators, bind.
  destruct (validate_year (today_year env) (year fields)) as [[] | e] eqn:Hy;
    [| reflexivity].
  apply validate_year_accepts in Hy. unfold in_year_range in Hy.
  split; [reflexivity |]. split.
  { exists u. split; [reflexivity |].
    apply orb_true_iff in Hgate. destruct Hgate as [Hg | Hg];
      [left; exact Hg | right; apply admin_iff; exact Hg]. }
  split; [exact Hy |]. simpl. repeat split.
  intros x Hx. apply next_pk_fresh, in_map, Hx.
Qed.

Lemma title_create_outcomes_witness :
  match TitleViewSet_create Sample.env (Scenario.post_by Sample.maria)
                            (Sample.year_fields 2000) Sample.store
  with
  | (Raise _, s') => s' = Sample.store
  | (Ok _, _) => False
  end.
Proof.
  pose proof (title_create_outcomes Sample.env (Scenario.post_by Sample.maria)
                (Sample.year_fields 2000) Sample.store eq_refl) as H.
  exact H.
Defined.

(** ** The [me] action keeps the unique columns unique *)

Section Replace.

Context {K : Type}.
Variable eqb : K -> K -> bool.
Hypothesis eqb_spec : forall a b, eqb a b = true <-> a = b.
Variable key : User -> K.
Variable saved : User.

Lemma distinct_replaced (us : list User) :
  distinct Z.eqb (map user_pk us) = true ->
  distinct eqb (map key us) = true ->
  (forall r, In r us -> user_pk r <> user_pk saved -> key r <> key saved) ->
  distinct eqb
    (map key (map (fun r => if user_pk r =? user_pk saved then saved else r)
                  us)) = true.
Proof.
  induction us as [| h t IH]; intros Hpk Hkey Hfree; simpl; [reflexivity |].
  simpl in Hpk, Hkey.
  apply andb_true_iff in Hpk. destruct Hpk as [Hpkh Hpkt].
  apply andb_true_iff in Hkey. destruct Hkey as [Hkeyh Hkeyt].
  apply negb_true_iff in Hpkh. apply negb_true_iff in Hkeyh.
  pose proof (fresh_key user_pk Z.eqb h t Z.eqb_eq Hpkh) as Hpk_ne.
  pose proof (fresh_key key eqb h t eqb_spec Hkeyh) as Hkey_ne.
  apply andb_true_iff. split.
  - apply negb_true_iff. apply existsb_false. intros x Hx.
    rewrite map_map in Hx. apply in_map_iff in Hx.
    destruct Hx as [r [Hx Hr]]. subst x.
    destruct (eqb _ _) eqn:Heq; [| reflexivity].
    apply eqb_spec in Heq. exfalso.
    destruct (Z.eqb_spec (user_pk h) (user_pk saved)) as [Hh | Hh];
      destruct (Z.eqb_spec (user_pk r) (user_pk saved)) as [Hr' | Hr'].
    + apply (Hpk_ne r Hr). congruence.
    + apply (Hfree r (or_intror Hr) Hr'). congruence.
    + apply (Hfree h (or_introl eq_refl) Hh). exact Heq.
    + exact (Hkey_ne r Hr Heq).
  - apply IH; [exact Hpkt | exact Hkeyt |].
    intros r Hr. apply Hfree. right. exact Hr.
Qed.

End Replace.

Lemma User_save_consistent (saved : User) (s : Store) :
  consistent s = true ->
  mem_pk (user_pk saved) (map user_pk (users s)) = true ->
  consistent (snd (User_save saved s)) = true.
Proof.
  intros Hc Hmem. unfold User_save.
  destruct (violates_unique saved (users s)) eqn:Hv; [exact Hc |].
  rewrite Hmem. unfold consistent in *. simpl users.
  apply andb_true_iff in Hc. destruct Hc as [Hc Hn].
  apply andb_true_iff in Hc. destruct Hc as [Hp He].
  assert (forall r, In r (users s) -> user_pk r <> user_pk saved ->
                    username r <> username saved /\ email r <> email saved)
    as Hfree.
  { intros r Hr Hpk.
    pose proof (existsb_false_inv _ _ Hv r Hr) as Hr'. simpl in Hr'.
    apply andb_false_iff in Hr'. destruct Hr' as [Hr' | Hr'].
    - apply negb_false_iff, Z.eqb_eq in Hr'. contradiction.
    - apply orb_false_iff in Hr'. destruct Hr' as [Hu Hm].
      split; apply String.eqb_neq; assumption. }
  rewrite (distinct_replaced String.eqb String.eqb_eq email saved _ Hp He),
          (distinct_replaced String.eqb String.eqb_eq username saved _ Hp Hn).
  - rewrite andb_true_r, andb_true_r.
    assert (map user_pk
              (map (fun r => if user_pk r =? user_pk saved then saved else r)
                   (users s)) = map user_pk (users s)) as Hsame.
    { rewrite map_map. apply map_ext. intro r.
      destruct (Z.eqb_spec (user_pk r) (user_pk saved)); congruence. }
    rewrite Hsame. exact Hp.
  - intros r Hr Hpk. exact (proj1 (Hfree r Hr Hpk)).
  - intros r Hr Hpk. exact (proj2 (Hfree r Hr Hpk)).
Qed.

(** X23: on a store where primary keys, emails and user names are unique
    the [me] action keeps them unique and keeps the number of users,
    whatever the payload and whatever the serializer lets through: a user
    name that another user holds is refused by the save. *)
Theorem me_keeps_unique_columns :
  forall (UserSerializer : UserSerializer_partial)
         (to_representation : User -> Dict) (request : Request)
         (s : Store) (u : User),
    consistent s = true ->
    user request = LoggedIn u ->
    In u (users s) ->
    consistent (snd (UserViewSet_me UserSerializer to_representation
                                    request s)) = true
    /\ List.length
         (users (snd (UserViewSet_me UserSerializer to_representation
                                     request s)))
       = List.length (users s).
Proof.
  intros ser repr request s u Hc Hu Hin.
  unfold UserViewSet_me, bindV, lift, raise, ret, run_serializer,
    check_permissions, IsAuthenticated, has_permission, bind.
  rewrite Hu. simpl is_authenticated. cbv beta iota.
  destruct (negb (py_in (method request) ["GET"; "HEAD"; "PATCH"]));
    [split; [exact Hc | reflexivity] |].
  destruct (String.eqb (method request) "PATCH");
    [| split; [exact Hc | reflexivity]].
  destruct (ser s u (data request)) as [validated_data | e];
    [| split; [exact Hc | reflexivity]].
  unfold Serializer_save, ModelSerializer_update, bindV, ret.
  set (saved := setattr_items u _).
  assert (user_pk saved = user_pk u) as Hpk by apply update_pk.
  assert (mem_pk (user_pk saved) (map user_pk (users s)) = true) as Hmem
    by (rewrite Hpk; apply mem_pk_In, in_map, Hin).
  pose proof (User_save_consistent saved s Hc Hmem) as Hkept.
  assert (List.length (users (snd (User_save saved s)))
          = List.length (users s)) as Hlen.
  { unfold User_save. destruct (violates_unique saved (users s));
      [reflexivity |].
    rewrite Hmem. simpl users. apply length_map. }
  destruct (User_save saved s) as [[[] | e] s']; split; assumption.
Qed.

Lemma me_keeps_unique_columns_witness :
  consistent (snd (UserViewSet_me Sample.permissive (fun _ => [])
                     (mkRequest "PATCH" (LoggedIn Sample.alice)
                                [("username", VStr "root")])
                     Sample.store)) = true.
Proof.
  apply (proj1 (me_keeps_unique_columns Sample.permissive (fun _ => [])
                  (mkRequest "PATCH" (LoggedIn Sample.alice)
                             [("username", VStr "root")])
                  Sample.store Sample.alice eq_refl eq_refl
                  (or_introl eq_refl))).
Defined.
